(** * deploy/buildtools/bitbuilder.py: the F1 bitstream build driver

    A shallow embedding of [F1BitBuilder.build_bitstream] and
    [F1BitBuilder.aws_create_afi].

    Reading conventions.
    - The functions talk to the outside through fabric ([run], [local],
      [rsync_project]), the logger, the notification helper, the AWS
      helpers and the file system.  Every such call is recorded, in
      program order, as an [Event]; what the outside answers is read from
      a [World].
    - The source inspects [return_code] of the Vivado command itself, so a
      command hands its result object back to the caller whatever its exit
      status is.
    - [json.loads] and the subscripting of its result are not modelled:
      the [World] supplies the decoded fields.  The [open] and [write] of
      the entry file are one [EWriteFile] event.  The embedding is thus of
      the calls in which the replies decode and the file can be written;
      where a theorem says that [aws_create_afi] returns, it says so of
      these calls.
    - In three places of [aws_create_afi] the body of a compound statement
      ([while], [with open], [if post_build_hook]) stands at the column of
      its header; the embedding takes the statements that follow the
      header, up to the blank line, as its body.
    - Python exceptions are outcomes ([Raised]); the polling loop takes
      fuel, and [Polling] is the outcome of a run whose fuel ran out while
      the image was still pending. *)

From Stdlib Require Import String Ascii List ZArith Bool Lia Arith.
Import ListNotations.
Open Scope string_scope.

(** ** Python strings *)

Module Py.

(** Characters [str.split()] treats as separators in ASCII text. *)
Definition isspace (c : ascii) : bool :=
  match nat_of_ascii c with
  | 9 | 10 | 11 | 12 | 13 | 28 | 29 | 30 | 31 | 32 => true
  | _ => false
  end.

(** [split_from s word]: [word] is the word being read. *)
Fixpoint split_from (s : string) (word : string) : list string :=
  match s with
  | EmptyString => if (word =? "")%string then [] else [word]
  | String c s' =>
      if isspace c
      then (if (word =? "")%string then split_from s' ""
            else word :: split_from s' "")
      else split_from s' (word ++ String c "")
  end.

(** [s.split()], no argument: runs of whitespace separate, no empty
    words. *)
Definition split (s : string) : list string := split_from s "".

(** [len(s)]. *)
Definition len (s : string) : Z := Z.of_nat (String.length s).

(** Truth value of an attribute that holds [None] or a [str]. *)
Definition truthy (v : option string) : bool :=
  match v with
  | None => false
  | Some s => negb (s =? "")%string
  end.

(** [str(v)] of such an attribute. *)
Definition str (v : option string) : string :=
  match v with
  | None => "None"
  | Some s => s
  end.

(** [sep.join(l)]. *)
Fixpoint join (sep : string) (l : list string) : string :=
  match l with
  | [] => ""
  | [x] => x
  | x :: rest => x ++ sep ++ join sep rest
  end.

End Py.

(** ** The outside world *)

(** What a fabric [run] or [local] call hands back. *)
Record CmdResult := mkCmdResult {
  stdout : string;
  stderr : string;
  return_code : Z
}.

(** The call sites of [local], one constructor each. *)
Inductive LocalCall :=
| Pwd | GitStatus | GitRevParse | LsTar | S3Cp | CreateFpgaImage
| DescribeFpgaImages | MkdirHwdb | PostBuildHook.

(** The call sites of [run]. *)
Inductive RunCall := MkdirResults | CpGeneratedSv | BuildBitstreamSh.

Inductive LogLevel := Info | Debug.

Inductive Event :=
| ELog (level : LogLevel) (msg : string)
| ERun (site : RunCall) (cmd : string)
| ELocal (site : LocalCall) (cwd : option string) (cmd : string)
| ERsync (local_dir remote_dir : string) (upload : bool)
| ENotify (title body : string)
    (* send_firesim_notification *)
| EReleaseBuildFarmHost
    (* build_config.build_farm_host_dispatcher.release_build_farm_host() *)
| EReleaseBuildHost
    (* build_config.build_host_dispatcher.release_build_host() *)
| ESleep (seconds : Z)
| ECopyAfiToAllRegions (afi : string)
| EWriteFile (path content : string).

Inductive Exn :=
| AssertionError (msg : string)
| IndexError
| AttributeError (obj attr : string).

Inductive Outcome (A : Type) :=
| Returned (a : A)
| Raised (e : Exn)
| Polling.
Arguments Returned {A} a.
Arguments Raised {A} e.
Arguments Polling {A}.

(** A computation: the events it caused, in order, and how it ended. *)
Definition M (A : Type) : Type := list Event * Outcome A.

Definition ret {A} (a : A) : M A := ([], Returned a).

Definition bind {A B} (m : M A) (f : A -> M B) : M B :=
  match m with
  | (t, Returned a) => let (t', o) := f a in ((t ++ t')%list, o)
  | (t, Raised e) => (t, Raised e)
  | (t, Polling) => (t, Polling)
  end.

Definition emit (e : Event) : M unit := ([e], Returned tt).
Definition raise {A} (e : Exn) : M A := ([], Raised e).

Declare Scope py_scope.
Delimit Scope py_scope with py.
Notation "x <- c1 ;; c2" := (bind c1 (fun x => c2))
  (at level 100, c1 at next level, right associativity) : py_scope.
Notation "c1 ;; c2" := (bind c1 (fun _ => c2))
  (at level 100, right associativity) : py_scope.
Open Scope py_scope.

Definition trace {A} (m : M A) : list Event := fst m.
Definition outcome {A} (m : M A) : Outcome A := snd m.

(** [m] with the events [t] in front. *)
Definition prefixed {A} (t : list Event) (m : M A) : M A :=
  ((t ++ fst m)%list, snd m).

(** [assert cond, msg]. *)
Definition assert (cond : bool) (msg : string) : M unit :=
  if cond then ret tt else raise (AssertionError msg).

(** [l[-1]]. *)
Definition last_item (l : list string) : M string :=
  match rev l with
  | [] => raise IndexError
  | x :: _ => ret x
  end.

(** ** Build configuration *)

Record BuildFarmHostDispatcher := mkDispatcher {
  is_local : bool
}.

(** [buildtools.buildconfig.BuildConfig] is imported for typing only; the
    record has the attributes and getters the two functions read.
    [has_build_host_dispatcher] says whether the object also carries an
    attribute [build_host_dispatcher] with a [release_build_host] method,
    the names [on_build_failure] uses. *)
Record BuildConfig := mkBuildConfig {
  name : string;
  s3_bucketname : string;
  get_chisel_triplet : string;
  get_build_dir_name : string;
  deploytriplet : option string;
  post_build_hook : option string;
  build_farm_host_dispatcher : BuildFarmHostDispatcher;
  has_build_host_dispatcher : bool
}.

(** [BitBuilder.__init__] sets [build_config] and nothing else. *)
Record F1BitBuilder := mkF1BitBuilder {
  build_config : BuildConfig
}.

(** The object a call binds to the first parameter of [aws_create_afi]:
    the parameter is annotated [BuildConfig]; [self.aws_create_afi()]
    binds the builder. *)
Inductive Receiver :=
| OfBuildConfig (bc : BuildConfig)
| OfBitBuilder (b : F1BitBuilder).

Record World := mkWorld {
  pwd : string;                       (* local("pwd") *)
  host_string : string;               (* env.host_string *)
  random_suffix : string;             (* the ten random characters *)
  rsync_script : CmdResult;           (* rsync of build-bitstream.sh *)
  vivado : CmdResult;                 (* run(build-bitstream.sh) *)
  rsync_results : CmdResult;          (* rsync of the results, download *)
  git_status : string;                (* '-dirty' or '' *)
  git_rev_parse : string;
  to_aws_tar_files : list string;     (* what `ls *.tar` lists, in order *)
  ls_stderr : string;
  s3_cp : CmdResult;
  create_fpga_image : CmdResult;
  FpgaImageGlobalId : string;         (* decoded from create_fpga_image *)
  FpgaImageId : string;
  describe_state_code : nat -> string;
    (* ["FpgaImages"][0]["State"]["Code"] of the k-th describe-fpga-images *)
  hook : CmdResult
}.

(** Standard output of [ls *.tar]: one name per line. *)
Definition ls_tar_stdout (w : World) : string :=
  Py.join (String "010" "") (to_aws_tar_files w).

Definition dquote : string := String "034" "".
Definition newline : string := String "010" "".

(** [os.path.join(a, b)] on POSIX paths, for the one call of the source,
    whose first argument ends with a slash. *)
Definition path_join (a b : string) : string :=
  match b with
  | String "/" _ => b
  | _ => a ++ b
  end.

(** ** The two functions *)

Section BitBuilder.

(** [awstools.afitools.firesim_tags_to_description], imported by the
    source; its text is outside this file. *)
Variable firesim_tags_to_description : string -> string -> string -> string.

Variable w : World.

Definition log (level : LogLevel) (msg : string) : M unit :=
  emit (ELog level msg).

(** [local(cmd, capture=True)], under [lcd(cwd)] when [cwd] is given. *)
Definition local (site : LocalCall) (cwd : option string) (cmd : string)
    (answer : CmdResult) : M CmdResult :=
  emit (ELocal site cwd cmd) ;; ret answer.

Definition run (site : RunCall) (cmd : string) (answer : CmdResult)
    : M CmdResult :=
  emit (ERun site cmd) ;; ret answer.

Definition rsync_project (local_dir remote_dir : string) (upload : bool)
    (answer : CmdResult) : M CmdResult :=
  emit (ERsync local_dir remote_dir upload) ;; ret answer.

Definition quiet (out : string) : CmdResult := mkCmdResult out "" 0.

Definition get_deploy_dir : M string :=
  deploydir <- local Pwd None "pwd" (quiet (pwd w)) ;;
  ret (stdout deploydir).

(** The [while checkstate == "pending"] loop of [aws_create_afi]; [k]
    counts the polls already made. *)
Fixpoint wait_for_image (fuel : nat) (local_results_dir afi : string)
    (k : nat) (checkstate : string) : M string :=
  if (checkstate =? "pending")%string then
    match fuel with
    | O => ([], Polling)
    | S fuel' =>
        local DescribeFpgaImages (Some local_results_dir)
          ("aws ec2 describe-fpga-images --fpga-image-id " ++ afi
             ++ " | tee AGFI_INFO")
          (quiet "") ;;
        let checkstate := describe_state_code w k in
        log Info ("Current state: " ++ checkstate) ;;
        emit (ESleep 10) ;;
        wait_for_image fuel' local_results_dir afi (S k) checkstate
    end
  else ret checkstate.

(** Local values of [aws_create_afi] that are plain expressions of the
    configuration and of command output; each is named after the local
    variable of the source. *)

Definition local_results_dir (local_deploy_dir : string)
    (build_config : BuildConfig) : string :=
  local_deploy_dir ++ "/results-build/" ++ get_build_dir_name build_config.

(** [tag_deploytriplet = tag_buildtriplet], overwritten when
    [build_config.deploytriplet] is true. *)
Definition tag_deploytriplet (build_config : BuildConfig) : string :=
  let tag_buildtriplet := get_chisel_triplet build_config in
  if Py.truthy (deploytriplet build_config)
  then Py.str (deploytriplet build_config)
  else tag_buildtriplet.

Definition tag_fsimcommit : string := git_rev_parse w ++ git_status w.

Definition description (build_config : BuildConfig) : string :=
  firesim_tags_to_description (get_chisel_triplet build_config)
    (tag_deploytriplet build_config) tag_fsimcommit.

Definition global_append : string :=
  "-" ++ host_string w ++ "-" ++ random_suffix w ++ ".tar".

(** The directory of the [lcd] around the artifact listing. *)
Definition to_aws (local_deploy_dir : string) (build_config : BuildConfig)
    : string :=
  local_results_dir local_deploy_dir build_config
    ++ "/cl_" ++ get_chisel_triplet build_config
    ++ "/build/checkpoints/to_aws/".

Definition s3_cp_command (tarfile s3bucket s3_tarfile : string) : string :=
  "aws s3 cp " ++ tarfile ++ " s3://" ++ s3bucket ++ "/dcp/" ++ s3_tarfile.

Definition create_fpga_image_command
    (s3bucket s3_tarfile afiname description : string) : string :=
  "aws ec2 create-fpga-image --input-storage-location Bucket=" ++ s3bucket
    ++ ",Key=" ++ ("dcp/" ++ s3_tarfile)
    ++ " --logs-storage-location Bucket=" ++ s3bucket
    ++ ",Key=" ++ "logs/"
    ++ " --name " ++ dquote ++ afiname ++ dquote
    ++ " --description " ++ dquote ++ description ++ dquote ++ " ".

Definition agfi_entry (afiname agfi : string) : string :=
  let agfi_entry := afiname ++ ":" ++ newline in
  let agfi_entry := agfi_entry ++ ("    agfi: " ++ agfi ++ newline) in
  let agfi_entry :=
    agfi_entry ++ ("    deploy_triplet_override: null" ++ newline) in
  agfi_entry ++ ("    custom_runtime_config: null" ++ newline).

Definition message_body (agfi_entry : string) : string :=
  "Your AGFI has been created!" ++ newline ++ "Add" ++ newline ++ newline
    ++ agfi_entry ++ newline
    ++ "to your config_hwdb.yaml to use this hardware configuration.".

Definition hwdb_entry_file_location (local_deploy_dir : string) : string :=
  local_deploy_dir ++ "/built-hwdb-entries/".

Definition aws_create_afi (fuel : nat) (build_config : Receiver)
    : M (option bool) :=
  local_deploy_dir <- get_deploy_dir ;;
  match build_config with
  | OfBitBuilder _ => raise (AttributeError "F1BitBuilder" "get_build_dir_name")
  | OfBuildConfig build_config =>
  let local_results_dir := local_results_dir local_deploy_dir build_config in
  let s3bucket := s3_bucketname build_config in
  let afiname := name build_config in
  (* construct the "tags" we store in the AGFI description *)
  let tag_buildtriplet := get_chisel_triplet build_config in
  let tag_deploytriplet := tag_deploytriplet build_config in
  assert (Py.len tag_buildtriplet <=? 255)%Z
    "ERR: aws does not support tags longer than 256 chars for buildtriplet" ;;
  assert (Py.len tag_deploytriplet <=? 255)%Z
    "ERR: aws does not support tags longer than 256 chars for deploytriplet" ;;
  is_dirty_str <- local GitStatus None
    "if [[ $(git status --porcelain) ]]; then echo '-dirty'; fi"
    (quiet (git_status w)) ;;
  hash <- local GitRevParse None "git rev-parse HEAD"
    (quiet (git_rev_parse w)) ;;
  let tag_fsimcommit := stdout hash ++ stdout is_dirty_str in
  assert (Py.len tag_fsimcommit <=? 255)%Z
    "ERR: aws does not support tags longer than 256 chars for fsimcommit" ;;
  (* construct the serialized description from these tags. *)
  let description :=
    firesim_tags_to_description tag_buildtriplet tag_deploytriplet
      tag_fsimcommit in
  let global_append := global_append in
  let to_aws := to_aws local_deploy_dir build_config in
  files <- local LsTar (Some to_aws) "ls *.tar"
    (mkCmdResult (ls_tar_stdout w) (ls_stderr w) 0) ;;
  log Debug (stdout files) ;;
  log Debug (stderr files) ;;
  tarfile <- last_item (Py.split (stdout files)) ;;
  let s3_tarfile := tarfile ++ global_append in
  localcap <- local S3Cp (Some to_aws)
    (s3_cp_command tarfile s3bucket s3_tarfile) (s3_cp w) ;;
  log Debug (stdout localcap) ;;
  log Debug (stderr localcap) ;;
  agfi_afi_ids <- local CreateFpgaImage (Some to_aws)
    (create_fpga_image_command s3bucket s3_tarfile afiname description)
    (create_fpga_image w) ;;
  log Debug (stdout agfi_afi_ids) ;;
  log Debug (stderr agfi_afi_ids) ;;
  log Debug ("create-fpge-image result: " ++ stdout agfi_afi_ids) ;;
  let agfi := FpgaImageGlobalId w in
  let afi := FpgaImageId w in
  log Info ("Resulting AGFI: " ++ agfi) ;;
  log Info ("Resulting AFI: " ++ afi) ;;
  log Info "Waiting for create-fpga-image completion." ;;
  checkstate <- wait_for_image fuel local_results_dir afi 0 "pending" ;;
  if (checkstate =? "available")%string then
    (* copy the image to all regions for the current user *)
    emit (ECopyAfiToAllRegions afi) ;;
    let message_title := "FireSim FPGA Build Completed" in
    let agfi_entry := agfi_entry afiname agfi in
    let message_body := message_body agfi_entry in
    emit (ENotify message_title message_body) ;;
    log Info message_title ;;
    log Info message_body ;;
    let hwdb_entry_file_location := hwdb_entry_file_location local_deploy_dir in
    local MkdirHwdb None ("mkdir -p " ++ hwdb_entry_file_location) (quiet "") ;;
    emit (EWriteFile (hwdb_entry_file_location ++ "/" ++ afiname) agfi_entry) ;;
    (if Py.truthy (post_build_hook build_config) then
       localcap <- local PostBuildHook None
         (Py.str (post_build_hook build_config) ++ " " ++ local_results_dir)
         (hook w) ;;
       log Debug ("[localhost] " ++ stdout localcap) ;;
       log Debug ("[localhost] " ++ stderr localcap)
     else ret tt) ;;
    log Info ("Build complete! AFI ready. See "
                ++ path_join hwdb_entry_file_location afiname ++ ".") ;;
    ret (Some true)
  else
    ret None
  end.

(** The nested [on_build_failure] of [build_bitstream]. *)
Definition on_build_failure (self : F1BitBuilder) : M unit :=
  let message_title := "FireSim FPGA Build Failed" in
  let message_body :=
    "Your FPGA build failed for triplet: "
      ++ get_chisel_triplet (build_config self) in
  emit (ENotify message_title message_body) ;;
  log Info message_title ;;
  log Info message_body ;;
  if has_build_host_dispatcher (build_config self)
  then emit EReleaseBuildHost
  else raise (AttributeError "BuildConfig" "build_host_dispatcher").

(** [not v] for the value [aws_create_afi] returns. *)
Definition py_not (v : option bool) : bool :=
  match v with
  | Some true => false
  | _ => true
  end.

Definition build_bitstream (fuel : nat) (self : F1BitBuilder) (bypass : bool)
    : M unit :=
  if bypass then
    emit EReleaseBuildFarmHost
  else
    log Info "Building AWS F1 AGFI from Verilog" ;;
    local_deploy_dir <- get_deploy_dir ;;
    let fpga_build_postfix :=
      "hdk/cl/developer_designs/cl_" ++ get_chisel_triplet (build_config self) in
    let local_results_dir :=
      local_deploy_dir ++ "/results-build/"
        ++ get_build_dir_name (build_config self) in
    let local_cl_dir :=
      local_deploy_dir ++ "/../platforms/f1/aws-fpga/" ++ fpga_build_postfix in
    (* copy over generated RTL into local CL_DIR before remote *)
    run MkdirResults ("mkdir -p " ++ local_results_dir) (quiet "") ;;
    run CpGeneratedSv
      ("cp " ++ local_cl_dir ++ "/design/FireSim-generated.sv "
         ++ local_results_dir ++ "/FireSim-generated.sv") (quiet "") ;;
    cl_dir <-
      (if is_local (build_farm_host_dispatcher (build_config self))
       then ret local_cl_dir
       else raise (AttributeError "F1BitBuilder" "remote_setup")) ;;
    (* copy script to the cl_dir and execute *)
    rsync_cap <- rsync_project
      (local_deploy_dir ++ "/../platforms/f1/build-bitstream.sh")
      (cl_dir ++ "/") true (rsync_script w) ;;
    log Debug (stdout rsync_cap) ;;
    log Debug (stderr rsync_cap) ;;
    vivado_run <- run BuildBitstreamSh
      (cl_dir ++ "/build-bitstream.sh " ++ cl_dir) (vivado w) ;;
    let vivado_result := return_code vivado_run in
    (* put build results in the result-build area *)
    rsync_cap <- rsync_project (local_results_dir ++ "/") cl_dir false
      (rsync_results w) ;;
    log Debug (stdout rsync_cap) ;;
    log Debug (stderr rsync_cap) ;;
    if negb (vivado_result =? 0)%Z then
      on_build_failure self
    else
      created <- aws_create_afi fuel (OfBitBuilder self) ;;
      if py_not created then
        on_build_failure self
      else
        emit EReleaseBuildFarmHost.

End BitBuilder.

Arguments get_deploy_dir w : assert.
Arguments wait_for_image w fuel local_results_dir afi k checkstate : assert.
Arguments on_build_failure self : assert.

(** ** Observations on a trace *)

Definition count (p : Event -> bool) (t : list Event) : nat :=
  length (filter p t).

Definition is_release_build_farm_host (e : Event) : bool :=
  match e with EReleaseBuildFarmHost => true | _ => false end.

Definition is_notification (e : Event) : bool :=
  match e with ENotify _ _ => true | _ => false end.

Definition is_success_notification (e : Event) : bool :=
  match e with
  | ENotify title _ => (title =? "FireSim FPGA Build Completed")%string
  | _ => false
  end.

Definition is_failure_notification (e : Event) : bool :=
  match e with
  | ENotify title _ => (title =? "FireSim FPGA Build Failed")%string
  | _ => false
  end.

Definition LocalCall_eqb (a b : LocalCall) : bool :=
  match a, b with
  | Pwd, Pwd | GitStatus, GitStatus | GitRevParse, GitRevParse
  | LsTar, LsTar | S3Cp, S3Cp | CreateFpgaImage, CreateFpgaImage
  | DescribeFpgaImages, DescribeFpgaImages | MkdirHwdb, MkdirHwdb
  | PostBuildHook, PostBuildHook => true
  | _, _ => false
  end.

(** A [local] call made at the given call site. *)
Definition is_local_at (site : LocalCall) (e : Event) : bool :=
  match e with
  | ELocal s _ _ => LocalCall_eqb site s
  | _ => false
  end.

Definition is_run (e : Event) : bool :=
  match e with ERun _ _ => true | _ => false end.

Definition is_sleep (e : Event) : bool :=
  match e with ESleep _ => true | _ => false end.

Definition is_copy_to_regions (e : Event) : bool :=
  match e with ECopyAfiToAllRegions _ => true | _ => false end.

Definition is_write_file (e : Event) : bool :=
  match e with EWriteFile _ _ => true | _ => false end.

(** What [aws_create_afi] and everything after the Vivado stage does to
    the outside: the commit lookup, the artifact listing, the upload, the
    image submission, the polls, the distribution, the success
    notification, the registry entry and the hook. *)
Definition is_after_synthesis (e : Event) : bool :=
  is_local_at GitStatus e || is_local_at GitRevParse e
  || is_local_at LsTar e || is_local_at S3Cp e || is_local_at CreateFpgaImage e
  || is_local_at DescribeFpgaImages e || is_sleep e || is_copy_to_regions e
  || is_success_notification e || is_local_at MkdirHwdb e || is_write_file e
  || is_local_at PostBuildHook e.

(** The events of [m] polls, the first one being poll number [k]. *)
Definition polls (w : World) (local_results_dir afi : string) (k m : nat)
    : list Event :=
  flat_map
    (fun j =>
       [ ELocal DescribeFpgaImages (Some local_results_dir)
           ("aws ec2 describe-fpga-images --fpga-image-id " ++ afi
              ++ " | tee AGFI_INFO");
         ELog Info ("Current state: " ++ describe_state_code w j);
         ESleep 10 ])
    (seq k m).

(** The image leaves [pending] at poll number [n] and not before. *)
Definition settles_at (w : World) (n : nat) : Prop :=
  (forall j, j < n -> describe_state_code w j = "pending")
  /\ describe_state_code w n <> "pending".

(** ** The stages of a run, as traces *)

Fixpoint has_space (s : string) : bool :=
  match s with
  | EmptyString => false
  | String c s' => Py.isspace c || has_space s'
  end.

(** A file name that [split] gives back whole: not empty, no whitespace
    in it. *)
Definition plain_name (s : string) : Prop := s <> "" /\ has_space s = false.

(** The three assertions hold. *)
Definition tags_fit (w : World) (bc : BuildConfig) : Prop :=
  (Py.len (get_chisel_triplet bc) <= 255)%Z
  /\ (Py.len (tag_deploytriplet bc) <= 255)%Z
  /\ (Py.len (tag_fsimcommit w) <= 255)%Z.

(** Events up to the start of the polling loop, when [tarfile] is the
    artifact picked from the listing. *)
Definition submission_events
    (fttd : string -> string -> string -> string)
    (w : World) (bc : BuildConfig) (tarfile : string) : list Event :=
  [ ELocal Pwd None "pwd";
    ELocal GitStatus None
      "if [[ $(git status --porcelain) ]]; then echo '-dirty'; fi";
    ELocal GitRevParse None "git rev-parse HEAD";
    ELocal LsTar (Some (to_aws (pwd w) bc)) "ls *.tar";
    ELog Debug (ls_tar_stdout w);
    ELog Debug (ls_stderr w);
    ELocal S3Cp (Some (to_aws (pwd w) bc))
      (s3_cp_command tarfile (s3_bucketname bc) (tarfile ++ global_append w));
    ELog Debug (stdout (s3_cp w));
    ELog Debug (stderr (s3_cp w));
    ELocal CreateFpgaImage (Some (to_aws (pwd w) bc))
      (create_fpga_image_command (s3_bucketname bc)
         (tarfile ++ global_append w) (name bc) (description fttd w bc));
    ELog Debug (stdout (create_fpga_image w));
    ELog Debug (stderr (create_fpga_image w));
    ELog Debug ("create-fpge-image result: " ++ stdout (create_fpga_image w));
    ELog Info ("Resulting AGFI: " ++ FpgaImageGlobalId w);
    ELog Info ("Resulting AFI: " ++ FpgaImageId w);
    ELog Info "Waiting for create-fpga-image completion." ].

(** Events of the [if build_config.post_build_hook] statement. *)
Definition hook_events (w : World) (bc : BuildConfig) : list Event :=
  if Py.truthy (post_build_hook bc) then
    [ ELocal PostBuildHook None
        (Py.str (post_build_hook bc) ++ " " ++ local_results_dir (pwd w) bc);
      ELog Debug ("[localhost] " ++ stdout (hook w));
      ELog Debug ("[localhost] " ++ stderr (hook w)) ]
  else [].

(** Events of the [available] branch. *)
Definition completion_events (w : World) (bc : BuildConfig) : list Event :=
  ([ ECopyAfiToAllRegions (FpgaImageId w);
     ENotify "FireSim FPGA Build Completed"
       (message_body (agfi_entry (name bc) (FpgaImageGlobalId w)));
     ELog Info "FireSim FPGA Build Completed";
     ELog Info (message_body (agfi_entry (name bc) (FpgaImageGlobalId w)));
     ELocal MkdirHwdb None ("mkdir -p " ++ hwdb_entry_file_location (pwd w));
     EWriteFile (hwdb_entry_file_location (pwd w) ++ "/" ++ name bc)
       (agfi_entry (name bc) (FpgaImageGlobalId w)) ]
   ++ hook_events w bc
   ++ [ ELog Info ("Build complete! AFI ready. See "
                     ++ path_join (hwdb_entry_file_location (pwd w)) (name bc)
                     ++ ".") ])%list.

(** How [aws_create_afi] goes on once the loop has ended. *)
Definition after_polling (w : World) (bc : BuildConfig)
    (waited : M string) : M (option bool) :=
  match waited with
  | (t, Returned checkstate) =>
      if (checkstate =? "available")%string
      then ((t ++ completion_events w bc)%list, Returned (Some true))
      else (t, Returned None)
  | (t, Raised e) => (t, Raised e)
  | (t, Polling) => (t, Polling)
  end.

(** [local_cl_dir] of [build_bitstream]. *)
Definition local_cl_dir (w : World) (self : F1BitBuilder) : string :=
  pwd w ++ "/../platforms/f1/aws-fpga/"
    ++ ("hdk/cl/developer_designs/cl_"
          ++ get_chisel_triplet (build_config self)).

(** Events before the choice of [cl_dir]. *)
Definition setup_events (w : World) (self : F1BitBuilder) : list Event :=
  [ ELog Info "Building AWS F1 AGFI from Verilog";
    ELocal Pwd None "pwd";
    ERun MkdirResults
      ("mkdir -p " ++ local_results_dir (pwd w) (build_config self));
    ERun CpGeneratedSv
      ("cp " ++ local_cl_dir w self ++ "/design/FireSim-generated.sv "
         ++ local_results_dir (pwd w) (build_config self)
         ++ "/FireSim-generated.sv") ].

(** Events of the Vivado stage on a local build host. *)
Definition synthesis_events (w : World) (self : F1BitBuilder) : list Event :=
  [ ERsync (pwd w ++ "/../platforms/f1/build-bitstream.sh")
      (local_cl_dir w self ++ "/") true;
    ELog Debug (stdout (rsync_script w));
    ELog Debug (stderr (rsync_script w));
    ERun BuildBitstreamSh
      (local_cl_dir w self ++ "/build-bitstream.sh " ++ local_cl_dir w self);
    ERsync (local_results_dir (pwd w) (build_config self) ++ "/")
      (local_cl_dir w self) false;
    ELog Debug (stdout (rsync_results w));
    ELog Debug (stderr (rsync_results w)) ].

(** Events of [on_build_failure] before the release. *)
Definition failure_events (self : F1BitBuilder) : list Event :=
  [ ENotify "FireSim FPGA Build Failed"
      ("Your FPGA build failed for triplet: "
         ++ get_chisel_triplet (build_config self));
    ELog Info "FireSim FPGA Build Failed";
    ELog Info ("Your FPGA build failed for triplet: "
                 ++ get_chisel_triplet (build_config self)) ].

(** ** Example inputs *)

(** A stand-in for [firesim_tags_to_description] where an example needs
    a concrete function. *)
Definition example_tags_to_description (buildtriplet deploytriplet commit
    : string) : string :=
  "firesim-buildtriplet:" ++ buildtriplet ++ ",firesim-deploytriplet:"
    ++ deploytriplet ++ ",firesim-commit:" ++ commit.

Definition example_config (hook : option string) (old_dispatcher : bool)
    : BuildConfig :=
  mkBuildConfig "firesim-rocket" "firesim-afis"
    "FireSim-FireSimRocketConfig-BaseF1Config" "firesim-rocket-build"
    None hook (mkDispatcher true) old_dispatcher.

Definition example_builder (hook : option string) (old_dispatcher : bool)
    : F1BitBuilder :=
  mkF1BitBuilder (example_config hook old_dispatcher).

(** [pending] twice, then [state]. *)
Definition pending_twice_then (state : string) (k : nat) : string :=
  if (k <? 2)%nat then "pending" else state.

Definition example_world (vivado_exit : Z) (tars : list string)
    (states : nat -> string) : World :=
  mkWorld "/home/centos/firesim/deploy" "192.168.0.7" "Q7R1Z0AB3K"
    (quiet "") (mkCmdResult "" "" vivado_exit) (quiet "")
    "" "6a1f0c2" tars "" (quiet "") (quiet "") "agfi-123" "afi-456"
    states (mkCmdResult "" "hook: exit 1" 1).

(** [c] with another exit status. *)
Definition exit_with (code : Z) (c : CmdResult) : CmdResult :=
  mkCmdResult (stdout c) (stderr c) code.

(** [w] with other exit statuses for the five commands whose result
    object reaches the caller and whose [return_code] the source does not
    read: the two rsync calls, [aws s3 cp], [create-fpga-image] and the
    post-build hook. *)
Definition with_exit_codes (w : World)
    (rsync_script_code rsync_results_code s3_cp_code create_code hook_code : Z)
    : World :=
  mkWorld (pwd w) (host_string w) (random_suffix w)
    (exit_with rsync_script_code (rsync_script w)) (vivado w)
    (exit_with rsync_results_code (rsync_results w))
    (git_status w) (git_rev_parse w) (to_aws_tar_files w) (ls_stderr w)
    (exit_with s3_cp_code (s3_cp w))
    (exit_with create_code (create_fpga_image w))
    (FpgaImageGlobalId w) (FpgaImageId w) (describe_state_code w)
    (exit_with hook_code (hook w)).

(** Vivado exits with 0; the rsync of the build script exits with 23,
    [aws s3 cp] with 1, [create-fpga-image] with 254 and the hook with 1. *)
Definition example_world_with_failing_commands : World :=
  with_exit_codes
    (example_world 0 ["design.tar"] (pending_twice_then "available"))
    23 0 1 254 1.

(** A triplet of 256 characters. *)
Definition long_triplet : string := String.concat "" (repeat "x" 256).

(** ** Further observations *)

Definition is_rsync (e : Event) : bool :=
  match e with ERsync _ _ _ => true | _ => false end.

Definition is_release_build_host (e : Event) : bool :=
  match e with EReleaseBuildHost => true | _ => false end.

(** The Vivado command. *)
Definition is_vivado_run (e : Event) : bool :=
  match e with ERun BuildBitstreamSh _ => true | _ => false end.

(** Seconds spent in [time.sleep]. *)
Fixpoint slept (t : list Event) : Z :=
  match t with
  | [] => 0
  | ESleep seconds :: t' => seconds + slept t'
  | _ :: t' => slept t'
  end.

(** [e1] happens, and later [e2]. *)
Definition precedes (e1 e2 : Event) (t : list Event) : Prop :=
  exists a b c, t = (a ++ e1 :: b ++ e2 :: c)%list.

(** The first [fuel] answers are all [pending]. *)
Definition pending_through (w : World) (fuel : nat) : Prop :=
  forall j, j < fuel -> describe_state_code w j = "pending".

(** The events of a call are of these kinds only: local commands, log
    lines, sleeps, the copy to all regions, the success notification and
    the write of the entry. *)
Definition stays_on_manager (e : Event) : bool :=
  match e with
  | ELocal _ _ _ | ELog _ _ | ESleep _ | ECopyAfiToAllRegions _
  | EWriteFile _ _ => true
  | ENotify title _ => (title =? "FireSim FPGA Build Completed")%string
  | ERun _ _ | ERsync _ _ _ | EReleaseBuildFarmHost | EReleaseBuildHost =>
      false
  end.

(** [s3_tarfile] of [aws_create_afi]: the key of the upload under [dcp/]. *)
Definition s3_tarfile (w : World) (tarfile : string) : string :=
  tarfile ++ global_append w.

(** ** The remote set-up *)

Module Toolchain.

(** Events of [cl_dir_setup]: the events above, a [run] under the
    [prefix] contexts that enclose it (outermost first), and an
    [rsync_project] upload with its [exclude] list. *)
Inductive StageEvent :=
| Base (e : Event)
| PrefixedRun (prefixes : list string) (cmd : string)
| RsyncExcluding (local_dir remote_dir : string) (exclude : list string).

Definition Stage (A : Type) : Type := list StageEvent * Outcome A.

Definition sret {A} (a : A) : Stage A := ([], Returned a).

Definition sbind {A B} (m : Stage A) (f : A -> Stage B) : Stage B :=
  match m with
  | (t, Returned a) => let (t', o) := f a in ((t ++ t')%list, o)
  | (t, Raised e) => (t, Raised e)
  | (t, Polling) => (t, Polling)
  end.

Definition semit (e : StageEvent) : Stage unit := ([e], Returned tt).

(** A computation of the build functions, run inside these. *)
Definition lift {A} (m : M A) : Stage A := (map Base (fst m), snd m).

Declare Scope stage_scope.
Delimit Scope stage_scope with stage.
Notation "x <~ c1 ;; c2" := (sbind c1 (fun x => c2))
  (at level 100, c1 at next level, right associativity) : stage_scope.
Notation "c1 ;;; c2" := (sbind c1 (fun _ => c2))
  (at level 100, right associativity) : stage_scope.
Open Scope stage_scope.

Section Stages.

Variable w : World.

(** [first] and [second] are what the two [rsync_project] calls hand
    back. *)
Definition cl_dir_setup (chisel_triplet dest_build_dir : string)
    (first second : CmdResult) : Stage string :=
  let fpga_build_postfix :=
    "hdk/cl/developer_designs/cl_" ++ chisel_triplet in
  (* local paths *)
  deploy_dir <~ lift (get_deploy_dir w) ;;
  let local_awsfpga_dir := deploy_dir ++ "/../platforms/f1/aws-fpga" in
  let dest_f1_platform_dir := dest_build_dir ++ "/platforms/f1/" in
  let dest_awsfpga_dir := dest_f1_platform_dir ++ "/aws-fpga" in
  (* copy aws-fpga to the build instance. *)
  semit (PrefixedRun [] ("mkdir -p " ++ dest_f1_platform_dir)) ;;;
  semit (RsyncExcluding local_awsfpga_dir dest_f1_platform_dir
           ["hdk/cl/developer_designs/cl_*"]) ;;;
  semit (Base (ELog Debug (stdout first))) ;;;
  semit (Base (ELog Debug (stderr first))) ;;;
  semit (RsyncExcluding
           (local_awsfpga_dir ++ "/" ++ fpga_build_postfix ++ "/*")
           (dest_awsfpga_dir ++ "/" ++ fpga_build_postfix)
           ["build/checkpoints"]) ;;;
  semit (Base (ELog Debug (stdout second))) ;;;
  semit (Base (ELog Debug (stderr second))) ;;;
  sret (dest_awsfpga_dir ++ "/" ++ fpga_build_postfix).

End Stages.

End Toolchain.

(** A build configuration whose dispatcher is not local. *)
Definition remote_example_builder : F1BitBuilder :=
  mkF1BitBuilder
    (mkBuildConfig "firesim-rocket" "firesim-afis"
       "FireSim-FireSimRocketConfig-BaseF1Config" "firesim-rocket-build"
       None None (mkDispatcher false) false).

(** ** Laws of the monad *)

Lemma bind_returned {A B} (t : list Event) (a : A) (f : A -> M B) :
  bind (t, Returned a) f = prefixed t (f a).
Proof. unfold bind, prefixed. destruct (f a); reflexivity. Qed.

Lemma bind_emit {B} (e : Event) (f : unit -> M B) :
  bind (emit e) f = prefixed [e] (f tt).
Proof. apply bind_returned. Qed.

Lemma bind_ret {A B} (a : A) (f : A -> M B) : bind (ret a) f = f a.
Proof. unfold ret, bind. destruct (f a); reflexivity. Qed.

Lemma bind_raise {A B} (e : Exn) (f : A -> M B) :
  bind (raise e) f = raise e.
Proof. reflexivity. Qed.

Lemma bind_assoc {A B C} (m : M A) (f : A -> M B) (g : B -> M C) :
  bind (bind m f) g = bind m (fun a => bind (f a) g).
Proof.
  destruct m as [t [a | e | ]]; try reflexivity.
  unfold bind. destruct (f a) as [t1 [b | e | ]]; try reflexivity.
  destruct (g b) as [t2 o]. now rewrite app_assoc.
Qed.

Lemma bind_prefixed {A B} (t : list Event) (m : M A) (f : A -> M B) :
  bind (prefixed t m) f = prefixed t (bind m f).
Proof.
  destruct m as [t1 [a | e | ]]; unfold prefixed, bind; cbn [fst snd];
    try reflexivity.
  destruct (f a) as [t2 o]. cbn [fst snd]. now rewrite app_assoc.
Qed.

Lemma bind_log {B} (level : LogLevel) (msg : string) (f : unit -> M B) :
  bind (log level msg) f = prefixed [ELog level msg] (f tt).
Proof. apply bind_emit. Qed.

Lemma bind_local {B} (site : LocalCall) (cwd : option string) (cmd : string)
    (answer : CmdResult) (f : CmdResult -> M B) :
  bind (local site cwd cmd answer) f
  = prefixed [ELocal site cwd cmd] (f answer).
Proof.
  unfold local. now rewrite bind_assoc, bind_emit, bind_ret.
Qed.

Lemma bind_run {B} (site : RunCall) (cmd : string) (answer : CmdResult)
    (f : CmdResult -> M B) :
  bind (run site cmd answer) f = prefixed [ERun site cmd] (f answer).
Proof.
  unfold run. now rewrite bind_assoc, bind_emit, bind_ret.
Qed.

Lemma bind_rsync_project {B} (l r : string) (upload : bool)
    (answer : CmdResult) (f : CmdResult -> M B) :
  bind (rsync_project l r upload answer) f
  = prefixed [ERsync l r upload] (f answer).
Proof.
  unfold rsync_project. now rewrite bind_assoc, bind_emit, bind_ret.
Qed.

Lemma bind_get_deploy_dir {B} (w : World) (f : string -> M B) :
  bind (get_deploy_dir w) f = prefixed [ELocal Pwd None "pwd"] (f (pwd w)).
Proof.
  unfold get_deploy_dir. now rewrite bind_assoc, bind_local, bind_ret.
Qed.

Create Rewrite HintDb py.
#[export] Hint Rewrite @bind_emit @bind_log @bind_local @bind_run
  @bind_rsync_project @bind_get_deploy_dir @bind_ret @bind_raise
  @bind_prefixed : py.

(** Runs the straight-line part of a computation symbolically. *)
Ltac py_step := autorewrite with py.

(** ** The polling loop *)

Lemma wait_for_image_step (w : World) (fuel : nat) (dir afi : string)
    (k : nat) :
  wait_for_image w (S fuel) dir afi k "pending"
  = prefixed (polls w dir afi k 1)
      (wait_for_image w fuel dir afi (S k) (describe_state_code w k)).
Proof.
  cbn [wait_for_image String.eqb Ascii.eqb Bool.eqb].
  rewrite bind_local, bind_log, bind_emit.
  unfold prefixed. cbn [fst snd polls flat_map seq app]. reflexivity.
Qed.

Lemma wait_for_image_settled (w : World) (fuel : nat) (dir afi : string)
    (k : nat) (s : string) :
  s <> "pending" -> wait_for_image w fuel dir afi k s = ret s.
Proof.
  intros Hs. apply String.eqb_neq in Hs.
  destruct fuel; cbn [wait_for_image]; rewrite Hs; reflexivity.
Qed.

Lemma polls_S (w : World) (dir afi : string) (k m : nat) :
  polls w dir afi k (S m)
  = (polls w dir afi k 1 ++ polls w dir afi (S k) m)%list.
Proof. unfold polls. cbn [seq flat_map]. now rewrite app_nil_r. Qed.

Lemma wait_for_image_returns (w : World) (dir afi : string) :
  forall n fuel k,
    (forall j, j < n -> describe_state_code w (k + j) = "pending") ->
    describe_state_code w (k + n) <> "pending" ->
    n < fuel ->
    wait_for_image w fuel dir afi k "pending"
    = (polls w dir afi k (S n), Returned (describe_state_code w (k + n))).
Proof.
  induction n as [| n IH]; intros fuel k Hpend Hset Hfuel.
  - destruct fuel as [| fuel]; [lia |].
    rewrite wait_for_image_step. rewrite Nat.add_0_r in *.
    rewrite wait_for_image_settled by assumption.
    unfold prefixed. cbn [ret fst snd]. now rewrite app_nil_r.
  - destruct fuel as [| fuel]; [lia |].
    rewrite wait_for_image_step.
    assert (H0 : describe_state_code w k = "pending").
    { specialize (Hpend 0). rewrite Nat.add_0_r in Hpend. apply Hpend. lia. }
    rewrite H0.
    rewrite (IH fuel (S k)).
    + unfold prefixed. cbn [fst snd]. rewrite (polls_S w dir afi k (S n)).
      replace (S k + n) with (k + S n) by lia. reflexivity.
    + intros j Hj. replace (S k + j) with (k + S j) by lia. apply Hpend. lia.
    + replace (S k + n) with (k + S n) by lia. assumption.
    + lia.
Qed.

Lemma wait_for_image_still_polling (w : World) (dir afi : string) :
  forall fuel k,
    (forall j, j < fuel -> describe_state_code w (k + j) = "pending") ->
    wait_for_image w fuel dir afi k "pending"
    = (polls w dir afi k fuel, Polling).
Proof.
  induction fuel as [| fuel IH]; intros k Hpend.
  - reflexivity.
  - rewrite wait_for_image_step.
    assert (H0 : describe_state_code w k = "pending").
    { specialize (Hpend 0). rewrite Nat.add_0_r in Hpend. apply Hpend. lia. }
    rewrite H0, (IH (S k)).
    + unfold prefixed. cbn [fst snd]. now rewrite (polls_S w dir afi k fuel).
    + intros j Hj. replace (S k + j) with (k + S j) by lia. apply Hpend. lia.
Qed.

Lemma count_app (p : Event -> bool) (t1 t2 : list Event) :
  count p (t1 ++ t2)%list = count p t1 + count p t2.
Proof. unfold count. now rewrite filter_app, length_app. Qed.

Lemma count_polls (w : World) (dir afi : string) (p : Event -> bool)
    (a b c : bool) :
  (forall cwd cmd, p (ELocal DescribeFpgaImages cwd cmd) = a) ->
  (forall msg, p (ELog Info msg) = b) ->
  p (ESleep 10) = c ->
  forall m k,
    count p (polls w dir afi k m)
    = m * ((if a then 1 else 0) + (if b then 1 else 0) + (if c then 1 else 0)).
Proof.
  intros Ha Hb Hc.
  induction m as [| m IH]; intros k; [reflexivity |].
  rewrite polls_S, count_app, IH.
  unfold count. cbn [polls seq flat_map app filter]. rewrite Ha, Hb, Hc.
  destruct a, b, c; cbn [length]; lia.
Qed.

(** ** Splitting the artifact listing *)

Lemma append_assoc (a b c : string) : (a ++ b) ++ c = a ++ (b ++ c).
Proof. induction a as [| x a IH]; cbn; [reflexivity | now rewrite IH]. Qed.

Lemma append_empty_r (a : string) : a ++ "" = a.
Proof. induction a as [| x a IH]; cbn; [reflexivity | now rewrite IH]. Qed.

Lemma split_from_word (s : string) :
  has_space s = false ->
  forall word rest,
    Py.split_from (s ++ rest) word = Py.split_from rest (word ++ s).
Proof.
  induction s as [| c s IH]; intros Hs word rest.
  - now rewrite append_empty_r.
  - cbn in Hs. apply orb_false_iff in Hs as [Hc Hs].
    cbn [String.append Py.split_from]. rewrite Hc, (IH Hs).
    now rewrite append_assoc.
Qed.

Lemma split_join_lines (names : list string) :
  Forall plain_name names ->
  Py.split (Py.join newline names) = names.
Proof.
  unfold Py.split.
  induction names as [| x rest IH]; intros Hall; [reflexivity |].
  inversion Hall as [| ? ? [Hne Hsp] Hrest]; subst.
  destruct rest as [| y rest].
  - cbn [Py.join]. rewrite <- (append_empty_r x) at 1.
    rewrite (split_from_word x Hsp). cbn [String.append Py.split_from].
    apply String.eqb_neq in Hne. now rewrite Hne.
  - change (Py.join newline (x :: y :: rest))
      with (x ++ newline ++ Py.join newline (y :: rest)).
    rewrite (split_from_word x Hsp). cbn [String.append].
    unfold newline at 1. cbn [String.append Py.split_from].
    change (Py.isspace "010") with true. cbv iota.
    apply String.eqb_neq in Hne. rewrite Hne.
    now rewrite (IH Hrest).
Qed.

Lemma last_item_snoc (l : list string) (x : string) :
  last_item (l ++ [x])%list = ret x.
Proof. unfold last_item. now rewrite rev_app_distr. Qed.

Lemma last_item_last (l : list string) :
  l <> [] -> last_item l = ret (last l "").
Proof.
  intros Hl. destruct (exists_last Hl) as [l' [x ->]].
  now rewrite last_item_snoc, last_last.
Qed.

(** ** What [aws_create_afi] does, stage by stage *)

Lemma prefixed_pair {A} (t t' : list Event) (o : Outcome A) :
  prefixed t (t', o) = ((t ++ t')%list, o).
Proof. reflexivity. Qed.

Lemma prefixed_prefixed {A} (t t' : list Event) (m : M A) :
  prefixed t (prefixed t' m) = prefixed (t ++ t')%list m.
Proof. unfold prefixed. cbn [fst snd]. now rewrite app_assoc. Qed.

(** Every run of the loop is a row of polls, and ends still polling or
    with a state other than [pending]. *)
Lemma wait_for_image_shape (w : World) (dir afi : string) :
  forall fuel k s,
    exists m,
      wait_for_image w fuel dir afi k s = (polls w dir afi k m, Polling)
      \/ exists s', s' <> "pending"
           /\ wait_for_image w fuel dir afi k s
              = (polls w dir afi k m, Returned s').
Proof.
  induction fuel as [| fuel IH]; intros k s;
    destruct (String.eqb_spec s "pending") as [-> | Hs].
  - exists 0. left. reflexivity.
  - exists 0. right. exists s. split; [assumption |].
    now rewrite wait_for_image_settled.
  - destruct (IH (S k) (describe_state_code w k)) as [m [H | [s' [Hs' H]]]];
      exists (S m); rewrite wait_for_image_step, H, prefixed_pair, polls_S.
    + left. reflexivity.
    + right. exists s'. split; [assumption | reflexivity].
  - exists 0. right. exists s. split; [assumption |].
    now rewrite wait_for_image_settled.
Qed.

Lemma tags_fit_bool (w : World) (bc : BuildConfig) :
  tags_fit w bc ->
  (Py.len (get_chisel_triplet bc) <=? 255)%Z = true
  /\ (Py.len (tag_deploytriplet bc) <=? 255)%Z = true
  /\ (Py.len (git_rev_parse w ++ git_status w) <=? 255)%Z = true.
Proof.
  intros (H1 & H2 & H3). repeat split; now apply Z.leb_le.
Qed.

(** With tags that fit and a listing that is not empty, the function
    submits the last listed file and goes into the polling loop. *)
Lemma aws_create_afi_submits
    (fttd : string -> string -> string -> string) (w : World) (fuel : nat)
    (bc : BuildConfig) :
  tags_fit w bc ->
  Py.split (ls_tar_stdout w) <> [] ->
  aws_create_afi fttd w fuel (OfBuildConfig bc)
  = prefixed
      (submission_events fttd w bc (last (Py.split (ls_tar_stdout w)) ""))
      (after_polling w bc
         (wait_for_image w fuel (local_results_dir (pwd w) bc)
            (FpgaImageId w) 0 "pending")).
Proof.
  intros Hfit Hls. apply tags_fit_bool in Hfit as (H1 & H2 & H3).
  unfold aws_create_afi, assert.
  py_step. rewrite H1. py_step. rewrite H2. py_step.
  cbn [quiet stdout]. rewrite H3. py_step.
  cbn [stdout stderr]. rewrite (last_item_last _ Hls). py_step.
  rewrite !prefixed_prefixed. cbn [app].
  unfold submission_events, description, tag_fsimcommit. f_equal.
  destruct (wait_for_image w fuel (local_results_dir (pwd w) bc)
              (FpgaImageId w) 0 "pending") as [t [s | e | ]];
    cbn [after_polling]; try reflexivity.
  rewrite bind_returned.
  destruct (s =? "available")%string.
  - py_step. unfold completion_events, hook_events.
    destruct (Py.truthy (post_build_hook bc)); py_step;
      rewrite !prefixed_prefixed; unfold prefixed, ret; cbn [fst snd app];
      rewrite ?app_nil_r, <- ?app_assoc; reflexivity.
  - unfold prefixed, ret. cbn [fst snd]. now rewrite app_nil_r.
Qed.

(** The other ways through [aws_create_afi]. *)

Lemma aws_create_afi_of_builder
    (fttd : string -> string -> string -> string) (w : World) (fuel : nat)
    (self : F1BitBuilder) :
  aws_create_afi fttd w fuel (OfBitBuilder self)
  = ([ELocal Pwd None "pwd"],
     Raised (AttributeError "F1BitBuilder" "get_build_dir_name")).
Proof. reflexivity. Qed.

Lemma aws_create_afi_tags_too_long
    (fttd : string -> string -> string -> string) (w : World) (fuel : nat)
    (bc : BuildConfig) :
  ~ tags_fit w bc ->
  exists msg,
    aws_create_afi fttd w fuel (OfBuildConfig bc)
    = ([ELocal Pwd None "pwd"], Raised (AssertionError msg))
    \/ aws_create_afi fttd w fuel (OfBuildConfig bc)
       = ([ELocal Pwd None "pwd";
           ELocal GitStatus None
             "if [[ $(git status --porcelain) ]]; then echo '-dirty'; fi";
           ELocal GitRevParse None "git rev-parse HEAD"],
          Raised (AssertionError msg)).
Proof.
  intros Hnot. unfold aws_create_afi, assert. py_step.
  destruct (Py.len (get_chisel_triplet bc) <=? 255)%Z eqn:H1.
  2:{ eexists. left. reflexivity. }
  py_step.
  destruct (Py.len (tag_deploytriplet bc) <=? 255)%Z eqn:H2.
  2:{ eexists. left. reflexivity. }
  py_step. cbn [quiet stdout].
  destruct (Py.len (git_rev_parse w ++ git_status w) <=? 255)%Z eqn:H3.
  - exfalso. apply Hnot. repeat split; now apply Z.leb_le.
  - eexists. right. reflexivity.
Qed.

Lemma aws_create_afi_nothing_listed
    (fttd : string -> string -> string -> string) (w : World) (fuel : nat)
    (bc : BuildConfig) :
  tags_fit w bc ->
  Py.split (ls_tar_stdout w) = [] ->
  aws_create_afi fttd w fuel (OfBuildConfig bc)
  = ([ELocal Pwd None "pwd";
      ELocal GitStatus None
        "if [[ $(git status --porcelain) ]]; then echo '-dirty'; fi";
      ELocal GitRevParse None "git rev-parse HEAD";
      ELocal LsTar (Some (to_aws (pwd w) bc)) "ls *.tar";
      ELog Debug (ls_tar_stdout w);
      ELog Debug (ls_stderr w)],
     Raised IndexError).
Proof.
  intros Hfit Hls. apply tags_fit_bool in Hfit as (H1 & H2 & H3).
  unfold aws_create_afi, assert.
  py_step. rewrite H1. py_step. rewrite H2. py_step.
  cbn [quiet stdout]. rewrite H3. py_step.
  cbn [stdout stderr]. rewrite Hls. reflexivity.
Qed.

(** All runs that get past the listing, whatever the fuel. *)
Lemma aws_create_afi_submitted_cases
    (fttd : string -> string -> string -> string) (w : World) (fuel : nat)
    (bc : BuildConfig) :
  tags_fit w bc ->
  Py.split (ls_tar_stdout w) <> [] ->
  let submitted :=
    submission_events fttd w bc (last (Py.split (ls_tar_stdout w)) "") in
  exists m,
    let polled :=
      polls w (local_results_dir (pwd w) bc) (FpgaImageId w) 0 m in
    aws_create_afi fttd w fuel (OfBuildConfig bc)
    = ((submitted ++ polled)%list, Polling)
    \/ aws_create_afi fttd w fuel (OfBuildConfig bc)
       = ((submitted ++ polled ++ completion_events w bc)%list,
          Returned (Some true))
    \/ aws_create_afi fttd w fuel (OfBuildConfig bc)
       = ((submitted ++ polled)%list, Returned None).
Proof.
  intros Hfit Hls submitted.
  rewrite (aws_create_afi_submits fttd w fuel bc Hfit Hls).
  destruct (wait_for_image_shape w (local_results_dir (pwd w) bc)
              (FpgaImageId w) fuel 0 "pending") as [m [H | [s [_ H]]]];
    exists m; rewrite H; cbn [after_polling].
  - left. reflexivity.
  - destruct (s =? "available")%string.
    + right. left. reflexivity.
    + right. right. reflexivity.
Qed.

(** A run in which the image leaves [pending] at poll [n], with fuel for
    it. *)
Lemma aws_create_afi_settled
    (fttd : string -> string -> string -> string) (w : World) (fuel : nat)
    (bc : BuildConfig) (n : nat) :
  tags_fit w bc ->
  Py.split (ls_tar_stdout w) <> [] ->
  settles_at w n -> n < fuel ->
  let submitted :=
    submission_events fttd w bc (last (Py.split (ls_tar_stdout w)) "") in
  let polled :=
    polls w (local_results_dir (pwd w) bc) (FpgaImageId w) 0 (S n) in
  aws_create_afi fttd w fuel (OfBuildConfig bc)
  = if (describe_state_code w n =? "available")%string
    then ((submitted ++ polled ++ completion_events w bc)%list,
          Returned (Some true))
    else ((submitted ++ polled)%list, Returned None).
Proof.
  intros Hfit Hls [Hpend Hset] Hfuel submitted polled.
  rewrite (aws_create_afi_submits fttd w fuel bc Hfit Hls).
  rewrite (wait_for_image_returns w _ _ n fuel 0) by auto.
  cbn [Nat.add after_polling].
  destruct (describe_state_code w n =? "available")%string; reflexivity.
Qed.

(** ** What [build_bitstream] does *)

Lemma on_build_failure_runs (self : F1BitBuilder) :
  on_build_failure self
  = if has_build_host_dispatcher (build_config self)
    then ((failure_events self ++ [EReleaseBuildHost])%list, Returned tt)
    else (failure_events self,
          Raised (AttributeError "BuildConfig" "build_host_dispatcher")).
Proof.
  unfold on_build_failure. py_step.
  destruct (has_build_host_dispatcher (build_config self)); reflexivity.
Qed.

Lemma build_bitstream_bypass
    (fttd : string -> string -> string -> string) (w : World) (fuel : nat)
    (self : F1BitBuilder) :
  build_bitstream fttd w fuel self true
  = ([EReleaseBuildFarmHost], Returned tt).
Proof. reflexivity. Qed.

Lemma build_bitstream_remote
    (fttd : string -> string -> string -> string) (w : World) (fuel : nat)
    (self : F1BitBuilder) :
  is_local (build_farm_host_dispatcher (build_config self)) = false ->
  build_bitstream fttd w fuel self false
  = (setup_events w self,
     Raised (AttributeError "F1BitBuilder" "remote_setup")).
Proof.
  intros Hremote. unfold build_bitstream. py_step. rewrite Hremote.
  py_step. reflexivity.
Qed.

Lemma build_bitstream_vivado_failed
    (fttd : string -> string -> string -> string) (w : World) (fuel : nat)
    (self : F1BitBuilder) :
  is_local (build_farm_host_dispatcher (build_config self)) = true ->
  return_code (vivado w) <> 0%Z ->
  build_bitstream fttd w fuel self false
  = prefixed (setup_events w self ++ synthesis_events w self)%list
      (on_build_failure self).
Proof.
  intros Hlocal Hrc. apply Z.eqb_neq in Hrc.
  unfold build_bitstream. py_step. rewrite Hlocal. py_step. rewrite Hrc.
  cbn [negb]. rewrite !prefixed_prefixed. reflexivity.
Qed.

Lemma build_bitstream_vivado_passed
    (fttd : string -> string -> string -> string) (w : World) (fuel : nat)
    (self : F1BitBuilder) :
  is_local (build_farm_host_dispatcher (build_config self)) = true ->
  return_code (vivado w) = 0%Z ->
  build_bitstream fttd w fuel self false
  = ((setup_events w self ++ synthesis_events w self
        ++ [ELocal Pwd None "pwd"])%list,
     Raised (AttributeError "F1BitBuilder" "get_build_dir_name")).
Proof.
  intros Hlocal Hrc. apply Z.eqb_eq in Hrc.
  unfold build_bitstream. py_step. rewrite Hlocal. py_step. rewrite Hrc.
  cbn [negb]. rewrite aws_create_afi_of_builder.
  rewrite !prefixed_prefixed. reflexivity.
Qed.

(** ** Counting in the traces *)

Lemma filter_polls_none (w : World) (dir afi : string) (p : Event -> bool) :
  (forall cwd cmd, p (ELocal DescribeFpgaImages cwd cmd) = false) ->
  (forall msg, p (ELog Info msg) = false) ->
  p (ESleep 10) = false ->
  forall m k, filter p (polls w dir afi k m) = [].
Proof.
  intros Ha Hb Hc m k. apply length_zero_iff_nil.
  change (count p (polls w dir afi k m) = 0).
  rewrite (count_polls w dir afi p false false false Ha Hb Hc). lia.
Qed.

(** Splits a trace at its appends and evaluates the filter on the
    explicit parts; the polls contribute nothing. *)
Ltac filter_trace :=
  unfold count;
  repeat rewrite filter_app;
  repeat (rewrite filter_polls_none by (intros; reflexivity));
  unfold submission_events, completion_events, hook_events,
    setup_events, synthesis_events, failure_events;
  repeat match goal with
         | |- context [if ?b then _ else _] =>
             match b with
             | Py.truthy _ => destruct b
             | has_build_host_dispatcher _ => destruct b
             end
         end;
  cbn [filter app length fst snd trace outcome
       is_local_at LocalCall_eqb is_notification is_success_notification
       is_failure_notification is_release_build_farm_host is_run is_sleep
       is_copy_to_regions is_write_file is_after_synthesis orb
       String.eqb Ascii.eqb Bool.eqb].

Lemma pending_twice_then_settles (vivado_exit : Z) (tars : list string)
    (state : string) :
  state <> "pending" ->
  settles_at (example_world vivado_exit tars (pending_twice_then state)) 2.
Proof.
  intros Hs. split; [| exact Hs].
  intros j Hj. cbn [describe_state_code example_world].
  unfold pending_twice_then.
  destruct (Nat.ltb_spec j 2); [reflexivity | lia].
Qed.

(** ** The bypass path *)

(** C7.  With [bypass] true, [build_bitstream] releases the build farm
    host and returns: the release is the only event of the run, so no
    build stage is executed, nothing is uploaded and no notification is
    sent. *)
Theorem bypass_releases_and_returns
    (fttd : string -> string -> string -> string) (w : World) (fuel : nat)
    (self : F1BitBuilder) :
  let r := build_bitstream fttd w fuel self true in
  trace r = [EReleaseBuildFarmHost]
  /\ outcome r = Returned tt
  /\ count is_run (trace r) = 0
  /\ count (is_local_at S3Cp) (trace r) = 0
  /\ count is_after_synthesis (trace r) = 0
  /\ count is_notification (trace r) = 0.
Proof.
  cbv zeta. rewrite build_bitstream_bypass. repeat split.
Qed.

(** ** The polling loop *)

(** C6.  While the describe calls answer [pending] the loop polls again,
    each poll followed by a sleep of 10.  If the first [n] answers are
    [pending]: a loop allowed more than [n] polls whose next answer is
    not [pending] returns that answer after exactly [n + 1] polls; a loop
    allowed [fuel <= n] polls has made all [fuel] of them and is still
    polling, whatever [fuel] is.  A call that starts from a state other
    than [pending] returns at once without polling. *)
Theorem polling_loop_runs_while_pending
    (w : World) (dir afi : string) (fuel n : nat) :
  (forall j, j < n -> describe_state_code w j = "pending") ->
  (describe_state_code w n <> "pending" -> n < fuel ->
   wait_for_image w fuel dir afi 0 "pending"
   = (polls w dir afi 0 (S n), Returned (describe_state_code w n)))
  /\ (fuel <= n ->
      wait_for_image w fuel dir afi 0 "pending"
      = (polls w dir afi 0 fuel, Polling))
  /\ (forall m k,
        count (is_local_at DescribeFpgaImages) (polls w dir afi k m) = m
        /\ filter is_sleep (polls w dir afi k m) = repeat (ESleep 10) m)
  /\ (forall s k, s <> "pending" ->
        wait_for_image w fuel dir afi k s = ([], Returned s)).
Proof.
  intros Hpend. split; [| split; [| split]].
  - intros Hset Hfuel. now apply (wait_for_image_returns w dir afi n fuel 0).
  - intros Hfuel. apply (wait_for_image_still_polling w dir afi fuel 0).
    intros j Hj. apply Hpend. lia.
  - intros m k. split.
    + rewrite (count_polls w dir afi _ true false false);
        [lia | reflexivity | reflexivity | reflexivity].
    + revert k. induction m as [| m IH]; intros k; [reflexivity |].
      rewrite polls_S, filter_app, IH. reflexivity.
  - intros s k Hs. now apply wait_for_image_settled.
Qed.

Lemma polling_loop_runs_while_pending_witness :
  let w := example_world 0 ["design.tar"] (pending_twice_then "available") in
  wait_for_image w 5 "results" "afi-456" 0 "pending"
  = (polls w "results" "afi-456" 0 3, Returned "available").
Proof.
  intros w.
  refine (proj1 (polling_loop_runs_while_pending w "results" "afi-456" 5 2 _)
            _ _).
  - intros j Hj. destruct j as [| [| j]]; [reflexivity | reflexivity | lia].
  - cbn. discriminate.
  - lia.
Defined.

(** ** Releasing the build farm host *)

(** A run that is not a bypass never calls [release_build_farm_host]. *)
Lemma no_farm_host_release_without_bypass
    (fttd : string -> string -> string -> string) (w : World) (fuel : nat)
    (self : F1BitBuilder) :
  count is_release_build_farm_host
    (trace (build_bitstream fttd w fuel self false)) = 0.
Proof.
  destruct (is_local (build_farm_host_dispatcher (build_config self)))
    eqn:Hlocal.
  - destruct (Z.eq_dec (return_code (vivado w)) 0) as [Hrc | Hrc].
    + rewrite (build_bitstream_vivado_passed fttd w fuel self Hlocal Hrc).
      cbn [trace fst]. filter_trace. reflexivity.
    + rewrite (build_bitstream_vivado_failed fttd w fuel self Hlocal Hrc).
      rewrite on_build_failure_runs.
      destruct (has_build_host_dispatcher (build_config self));
        rewrite prefixed_pair; cbn [trace fst]; filter_trace; reflexivity.
  - rewrite (build_bitstream_remote fttd w fuel self Hlocal). reflexivity.
Qed.

(** C1.  The claim fails on the code.  Vivado exits with status 2 on a
    local build host: [on_build_failure] sends its notification and then
    reaches for [build_host_dispatcher.release_build_host()], not for the
    [build_farm_host_dispatcher.release_build_farm_host()] of the bypass
    path and of the last line.  The release of the build farm host is
    called zero times, whether the configuration has the other attribute
    (the other method is called) or not (AttributeError). *)
Theorem failed_build_does_not_release_farm_host :
  let w := example_world 2 ["design.tar"] (pending_twice_then "available") in
  let without := build_bitstream example_tags_to_description w 5
                   (example_builder None false) false in
  let with_old := build_bitstream example_tags_to_description w 5
                    (example_builder None true) false in
  count is_release_build_farm_host (trace without) = 0
  /\ outcome without
     = Raised (AttributeError "BuildConfig" "build_host_dispatcher")
  /\ count is_release_build_farm_host (trace with_old) = 0
  /\ last (trace with_old) EReleaseBuildFarmHost = EReleaseBuildHost
  /\ outcome with_old = Returned tt.
Proof. vm_compute. repeat split. Qed.

(** ** Notifications *)

Lemma tags_fit_dec (w : World) (bc : BuildConfig) :
  tags_fit w bc \/ ~ tags_fit w bc.
Proof.
  unfold tags_fit.
  destruct (Z_le_gt_dec (Py.len (get_chisel_triplet bc)) 255);
    destruct (Z_le_gt_dec (Py.len (tag_deploytriplet bc)) 255);
    destruct (Z_le_gt_dec (Py.len (tag_fsimcommit w)) 255);
    solve [left; auto | right; intros (? & ? & ?); lia].
Qed.

(** C3.  The claim fails on the code.  A run that is not a bypass, on a
    local build host, with a Vivado exit status of 0, one [design.tar] in
    the artifact directory and an image that becomes available at the
    third poll, sends neither notification: [self.aws_create_afi()] binds
    the builder to the parameter [build_config], the call ends with an
    AttributeError at [get_build_dir_name], right after [pwd] and before
    the listing, and nothing catches it.  Called on the build
    configuration, in the same world, the function returns [True] and
    sends the one success notification. *)
Theorem successful_build_sends_no_notification :
  let w := example_world 0 ["design.tar"] (pending_twice_then "available") in
  let r := build_bitstream example_tags_to_description w 5
             (example_builder None false) false in
  let intended := aws_create_afi example_tags_to_description w 5
                    (OfBuildConfig (example_config None false)) in
  outcome r = Raised (AttributeError "F1BitBuilder" "get_build_dir_name")
  /\ count is_success_notification (trace r) = 0
  /\ count is_failure_notification (trace r) = 0
  /\ count is_notification (trace r) = 0
  /\ count (is_local_at LsTar) (trace r) = 0
  /\ outcome intended = Returned (Some true)
  /\ count is_success_notification (trace intended) = 1
  /\ count is_notification (trace intended) = 1.
Proof. vm_compute. repeat split. Qed.

(** ** Exit statuses *)

Lemma wait_for_image_with_exit_codes (w : World) (a b c d e : Z)
    (dir afi : string) :
  forall fuel k s,
    wait_for_image (with_exit_codes w a b c d e) fuel dir afi k s
    = wait_for_image w fuel dir afi k s.
Proof.
  induction fuel as [| fuel IH]; intros k s; cbn [wait_for_image].
  - reflexivity.
  - destruct (s =? "pending")%string; [| reflexivity].
    rewrite !bind_local, !bind_log, !bind_emit. rewrite IH. reflexivity.
Qed.

Lemma aws_create_afi_with_exit_codes
    (fttd : string -> string -> string -> string) (w : World)
    (a b c d e : Z) (fuel : nat) (rcv : Receiver) :
  aws_create_afi fttd (with_exit_codes w a b c d e) fuel rcv
  = aws_create_afi fttd w fuel rcv.
Proof.
  destruct rcv as [bc | self]; [| reflexivity].
  destruct (tags_fit_dec w bc) as [Hfit | Hnot].
  - assert (Hfit' : tags_fit (with_exit_codes w a b c d e) bc) by exact Hfit.
    destruct (Py.split (ls_tar_stdout w)) as [| x l] eqn:Hls.
    + rewrite (aws_create_afi_nothing_listed fttd
                 (with_exit_codes w a b c d e) fuel bc Hfit' Hls).
      rewrite (aws_create_afi_nothing_listed fttd w fuel bc Hfit Hls).
      reflexivity.
    + assert (Hne : Py.split (ls_tar_stdout w) <> [])
        by (rewrite Hls; discriminate).
      rewrite (aws_create_afi_submits fttd
                 (with_exit_codes w a b c d e) fuel bc Hfit' Hne).
      rewrite (aws_create_afi_submits fttd w fuel bc Hfit Hne).
      rewrite wait_for_image_with_exit_codes. reflexivity.
  - unfold aws_create_afi, assert. py_step.
    destruct (Py.len (get_chisel_triplet bc) <=? 255)%Z eqn:H1;
      [| reflexivity].
    py_step.
    destruct (Py.len (tag_deploytriplet bc) <=? 255)%Z eqn:H2;
      [| reflexivity].
    py_step. cbn [quiet stdout with_exit_codes git_rev_parse git_status].
    destruct (Py.len (git_rev_parse w ++ git_status w) <=? 255)%Z eqn:H3;
      [| reflexivity].
    exfalso. apply Hnot. repeat split; now apply Z.leb_le.
Qed.

Lemma build_bitstream_with_exit_codes
    (fttd : string -> string -> string -> string) (w : World)
    (a b c d e : Z) (fuel : nat) (self : F1BitBuilder) (bypass : bool) :
  build_bitstream fttd (with_exit_codes w a b c d e) fuel self bypass
  = build_bitstream fttd w fuel self bypass.
Proof.
  destruct bypass; [reflexivity |].
  destruct (is_local (build_farm_host_dispatcher (build_config self)))
    eqn:Hlocal.
  - destruct (Z.eq_dec (return_code (vivado w)) 0) as [Hrc | Hrc].
    + rewrite (build_bitstream_vivado_passed fttd
                 (with_exit_codes w a b c d e) fuel self Hlocal Hrc).
      rewrite (build_bitstream_vivado_passed fttd w fuel self Hlocal Hrc).
      reflexivity.
    + rewrite (build_bitstream_vivado_failed fttd
                 (with_exit_codes w a b c d e) fuel self Hlocal Hrc).
      rewrite (build_bitstream_vivado_failed fttd w fuel self Hlocal Hrc).
      reflexivity.
  - rewrite (build_bitstream_remote fttd (with_exit_codes w a b c d e)
               fuel self Hlocal).
    rewrite (build_bitstream_remote fttd w fuel self Hlocal). reflexivity.
Qed.




(** ** Artifact discovery *)

Lemma ls_tar_split (w : World) :
  Forall plain_name (to_aws_tar_files w) ->
  Py.split (ls_tar_stdout w) = to_aws_tar_files w.
Proof. apply split_join_lines. Qed.

(** C2, as stated, fails: with two [.tar] files in the directory the run
    does not fail; the second one is uploaded and the function returns
    [True]. *)
Lemma two_tar_files_upload_the_last :
  let w := example_world 0 ["design.tar"; "old.tar"]
             (pending_twice_then "available") in
  let r := aws_create_afi example_tags_to_description w 5
             (OfBuildConfig (example_config None false)) in
  length (to_aws_tar_files w) = 2
  /\ filter (is_local_at S3Cp) (trace r)
     = [ELocal S3Cp
          (Some ("/home/centos/firesim/deploy/results-build/"
                   ++ "firesim-rocket-build/"
                   ++ "cl_FireSim-FireSimRocketConfig-BaseF1Config"
                   ++ "/build/checkpoints/to_aws/"))
          ("aws s3 cp old.tar s3://firesim-afis/dcp/"
             ++ "old.tar-192.168.0.7-Q7R1Z0AB3K.tar")]
  /\ outcome r = Returned (Some true).
Proof. vm_compute. repeat split. Qed.

(** C2, amended.  The names listed are plain (not empty, no whitespace).
    If no [.tar] file is listed the function raises and uploads nothing.
    If at least one is listed, and the tags fit, the file listed last is
    the one uploaded, and it is the only upload; so with exactly one file,
    that file is uploaded. *)
Theorem artifact_discovery_takes_last
    (fttd : string -> string -> string -> string) (w : World) (fuel : nat)
    (bc : BuildConfig) :
  Forall plain_name (to_aws_tar_files w) ->
  let r := aws_create_afi fttd w fuel (OfBuildConfig bc) in
  let upload tarfile :=
    ELocal S3Cp (Some (to_aws (pwd w) bc))
      (s3_cp_command tarfile (s3_bucketname bc) (tarfile ++ global_append w)) in
  (to_aws_tar_files w = [] ->
   (exists e, outcome r = Raised e)
   /\ count (is_local_at S3Cp) (trace r) = 0
   /\ count (is_local_at CreateFpgaImage) (trace r) = 0)
  /\ (forall before tarfile,
        to_aws_tar_files w = (before ++ [tarfile])%list ->
        tags_fit w bc ->
        filter (is_local_at S3Cp) (trace r) = [upload tarfile])
  /\ (forall tarfile,
        to_aws_tar_files w = [tarfile] ->
        tags_fit w bc ->
        filter (is_local_at S3Cp) (trace r) = [upload tarfile]).
Proof.
  intros Hplain r upload. subst r upload.
  pose proof (ls_tar_split w Hplain) as Hsplit.
  assert (Hlast : forall before tarfile,
             to_aws_tar_files w = (before ++ [tarfile])%list ->
             tags_fit w bc ->
             filter (is_local_at S3Cp)
               (trace (aws_create_afi fttd w fuel (OfBuildConfig bc)))
             = [ELocal S3Cp (Some (to_aws (pwd w) bc))
                  (s3_cp_command tarfile (s3_bucketname bc)
                     (tarfile ++ global_append w))]).
  { intros before tarfile Hfiles Hfit.
    assert (Hne : Py.split (ls_tar_stdout w) <> []).
    { rewrite Hsplit, Hfiles. destruct before; discriminate. }
    assert (Hl : last (Py.split (ls_tar_stdout w)) "" = tarfile).
    { rewrite Hsplit, Hfiles. apply last_last. }
    destruct (aws_create_afi_submitted_cases fttd w fuel bc Hfit Hne)
      as [m [H | [H | H]]]; rewrite H, Hl; cbn [trace fst];
      filter_trace; reflexivity. }
  split; [| split].
  - intros Hnone. rewrite Hnone in Hsplit.
    destruct (tags_fit_dec w bc) as [Hfit | Hnot].
    + rewrite (aws_create_afi_nothing_listed fttd w fuel bc Hfit Hsplit).
      split; [eexists; reflexivity | split; reflexivity].
    + destruct (aws_create_afi_tags_too_long fttd w fuel bc Hnot)
        as [msg [H | H]]; rewrite H;
        (split; [eexists; reflexivity | split; reflexivity]).
  - exact Hlast.
  - intros tarfile Hfiles. apply (Hlast [] tarfile). exact Hfiles.
Qed.

Lemma example_fits (vivado_exit : Z) (tars : list string)
    (states : nat -> string) (hook : option string) (old : bool) :
  tags_fit (example_world vivado_exit tars states) (example_config hook old).
Proof. repeat split; vm_compute; discriminate. Defined.

Lemma artifact_discovery_takes_last_witness :
  let w := example_world 0 ["design.tar"] (pending_twice_then "available") in
  let bc := example_config None false in
  filter (is_local_at S3Cp)
    (trace (aws_create_afi example_tags_to_description w 5 (OfBuildConfig bc)))
  = [ELocal S3Cp (Some (to_aws (pwd w) bc))
       (s3_cp_command "design.tar" (s3_bucketname bc)
          ("design.tar" ++ global_append w))].
Proof.
  intros w bc.
  refine (proj2 (proj2 (artifact_discovery_takes_last
                          example_tags_to_description w 5 bc _))
            "design.tar" _ _).
  - repeat constructor; discriminate.
  - reflexivity.
  - apply example_fits.
Defined.

(** ** The end of the conversion *)

Lemma agfi_entry_contains_agfi (afiname agfi : string) :
  agfi_entry afiname agfi
  = (afiname ++ ":" ++ newline ++ "    agfi: ") ++ agfi
      ++ (newline ++ "    deploy_triplet_override: null" ++ newline
            ++ "    custom_runtime_config: null" ++ newline).
Proof.
  unfold agfi_entry. cbv zeta. now rewrite !append_assoc.
Qed.

(** C5.  In a run that submits the image and sees it leave [pending] at
    poll [n]: if the state is then [available], the image is copied to
    all regions (once), exactly one file is written, under
    [built-hwdb-entries], named after the build and holding the entry
    with the AGFI identifier, and the function returns [True]; with any
    other state it returns [None], copies nothing, writes nothing and
    notifies nobody. *)
Theorem available_image_is_registered
    (fttd : string -> string -> string -> string) (w : World) (fuel : nat)
    (bc : BuildConfig) (n : nat) :
  tags_fit w bc ->
  Py.split (ls_tar_stdout w) <> [] ->
  settles_at w n -> n < fuel ->
  let r := aws_create_afi fttd w fuel (OfBuildConfig bc) in
  (describe_state_code w n = "available" ->
   outcome r = Returned (Some true)
   /\ filter is_copy_to_regions (trace r)
      = [ECopyAfiToAllRegions (FpgaImageId w)]
   /\ filter is_write_file (trace r)
      = [EWriteFile (pwd w ++ "/built-hwdb-entries/" ++ "/" ++ name bc)
           (agfi_entry (name bc) (FpgaImageGlobalId w))]
   /\ (exists before after,
         agfi_entry (name bc) (FpgaImageGlobalId w)
         = before ++ FpgaImageGlobalId w ++ after))
  /\ (describe_state_code w n <> "available" ->
      outcome r = Returned None
      /\ count is_copy_to_regions (trace r) = 0
      /\ count is_write_file (trace r) = 0
      /\ count is_notification (trace r) = 0).
Proof.
  intros Hfit Hls Hset Hfuel r. subst r.
  rewrite (aws_create_afi_settled fttd w fuel bc n Hfit Hls Hset Hfuel).
  split.
  - intros Hav. rewrite Hav. cbn [String.eqb Ascii.eqb Bool.eqb].
    cbn [trace outcome fst snd]. split; [reflexivity |].
    split; [filter_trace; reflexivity |].
    split.
    + filter_trace; unfold hwdb_entry_file_location;
        rewrite ?append_assoc; reflexivity.
    + eexists. eexists. apply agfi_entry_contains_agfi.
  - intros Hother. apply String.eqb_neq in Hother. rewrite Hother.
    cbn [trace outcome fst snd]. split; [reflexivity |].
    repeat split; filter_trace; reflexivity.
Qed.

Lemma available_image_is_registered_witness :
  let w := example_world 0 ["design.tar"] (pending_twice_then "available") in
  let r := aws_create_afi example_tags_to_description w 5
             (OfBuildConfig (example_config None false)) in
  outcome r = Returned (Some true)
  /\ filter is_write_file (trace r)
     = [EWriteFile "/home/centos/firesim/deploy/built-hwdb-entries//firesim-rocket"
          (agfi_entry "firesim-rocket" "agfi-123")].
Proof.
  intros w r.
  pose proof (proj1 (available_image_is_registered
                example_tags_to_description w 5 (example_config None false) 2
                (example_fits 0 ["design.tar"]
                   (pending_twice_then "available") None false)
                ltac:(cbn; discriminate)
                (pending_twice_then_settles 0 ["design.tar"] "available"
                   ltac:(discriminate))
                ltac:(lia))
              eq_refl) as (Hout & _ & Hfile & _).
  split; [exact Hout | exact Hfile].
Defined.

(** ** The post-build hook *)

(** What [aws_create_afi] does with a configured hook, when called on a
    build configuration: one call, with the results directory as
    argument, its output logged, and [True] returned whatever the hook's
    exit status is. *)
Lemma post_build_hook_is_best_effort
    (fttd : string -> string -> string -> string) (w : World) (fuel : nat)
    (bc : BuildConfig) (n : nat) :
  tags_fit w bc ->
  Py.split (ls_tar_stdout w) <> [] ->
  settles_at w n -> n < fuel ->
  describe_state_code w n = "available" ->
  Py.truthy (post_build_hook bc) = true ->
  let r := aws_create_afi fttd w fuel (OfBuildConfig bc) in
  outcome r = Returned (Some true)
  /\ filter (is_local_at PostBuildHook) (trace r)
     = [ELocal PostBuildHook None
          (Py.str (post_build_hook bc) ++ " "
             ++ local_results_dir (pwd w) bc)]
  /\ In (ELog Debug ("[localhost] " ++ stdout (hook w))) (trace r)
  /\ In (ELog Debug ("[localhost] " ++ stderr (hook w))) (trace r)
  /\ count is_success_notification (trace r) = 1
  /\ count is_write_file (trace r) = 1.
Proof.
  intros Hfit Hls Hset Hfuel Hav Hhook r. subst r.
  rewrite (aws_create_afi_settled fttd w fuel bc n Hfit Hls Hset Hfuel).
  rewrite Hav. cbn [String.eqb Ascii.eqb Bool.eqb].
  cbn [trace outcome fst snd]. split; [reflexivity |].
  assert (Hev : hook_events w bc
                = [ELocal PostBuildHook None
                     (Py.str (post_build_hook bc) ++ " "
                        ++ local_results_dir (pwd w) bc);
                   ELog Debug ("[localhost] " ++ stdout (hook w));
                   ELog Debug ("[localhost] " ++ stderr (hook w))]).
  { unfold hook_events. now rewrite Hhook. }
  split; [| split; [| split; [| split]]].
  - unfold count. rewrite !filter_app.
    rewrite filter_polls_none by (intros; reflexivity).
    unfold completion_events. rewrite !filter_app, Hev. reflexivity.
  - apply in_or_app. right. apply in_or_app. right.
    unfold completion_events. apply in_or_app. right.
    apply in_or_app. left. rewrite Hev. cbn. auto.
  - apply in_or_app. right. apply in_or_app. right.
    unfold completion_events. apply in_or_app. right.
    apply in_or_app. left. rewrite Hev. cbn. auto.
  - unfold count. rewrite !filter_app.
    rewrite filter_polls_none by (intros; reflexivity).
    unfold completion_events. rewrite !filter_app, Hev. reflexivity.
  - unfold count. rewrite !filter_app.
    rewrite filter_polls_none by (intros; reflexivity).
    unfold completion_events. rewrite !filter_app, Hev. reflexivity.
Qed.

(** C8.  The claim fails on the code.  A hook is configured, Vivado exits
    with 0, one artifact is there and the image becomes available:
    [build_bitstream] calls [self.aws_create_afi()], the builder is bound
    to the parameter [build_config], and the first attribute read on it
    raises.  The hook is not run, and the success notification, the
    registry write and the release of the build farm host do not happen.
    Called on the build configuration itself, [aws_create_afi] runs the
    failing hook once and returns [True]. *)
Theorem hook_never_runs_from_build_bitstream :
  let w := example_world 0 ["design.tar"] (pending_twice_then "available") in
  let r := build_bitstream example_tags_to_description w 5
             (example_builder (Some "./notify.sh") false) false in
  let direct := aws_create_afi example_tags_to_description w 5
                  (OfBuildConfig (example_config (Some "./notify.sh") false)) in
  outcome r = Raised (AttributeError "F1BitBuilder" "get_build_dir_name")
  /\ count (is_local_at PostBuildHook) (trace r) = 0
  /\ count is_success_notification (trace r) = 0
  /\ count is_write_file (trace r) = 0
  /\ count is_release_build_farm_host (trace r) = 0
  /\ return_code (hook w) = 1%Z
  /\ outcome direct = Returned (Some true)
  /\ filter (is_local_at PostBuildHook) (trace direct)
     = [ELocal PostBuildHook None
          ("./notify.sh /home/centos/firesim/deploy/results-build/"
             ++ "firesim-rocket-build")].
Proof. vm_compute. repeat split. Qed.

(** ** The tags *)

(** C9.  If the build triplet, the deploy-triplet tag or the commit tag is
    longer than 255 characters, [aws_create_afi] ends with an
    AssertionError, and neither the upload nor the image submission has
    been made. *)
Theorem tag_length_assertions
    (fttd : string -> string -> string -> string) (w : World) (fuel : nat)
    (bc : BuildConfig) :
  (Py.len (get_chisel_triplet bc) > 255
   \/ Py.len (tag_deploytriplet bc) > 255
   \/ Py.len (tag_fsimcommit w) > 255)%Z ->
  let r := aws_create_afi fttd w fuel (OfBuildConfig bc) in
  (exists msg, outcome r = Raised (AssertionError msg))
  /\ count (is_local_at S3Cp) (trace r) = 0
  /\ count (is_local_at CreateFpgaImage) (trace r) = 0.
Proof.
  intros Hlong r. subst r.
  assert (Hnot : ~ tags_fit w bc) by (intros (? & ? & ?); lia).
  destruct (aws_create_afi_tags_too_long fttd w fuel bc Hnot)
    as [msg [H | H]]; rewrite H;
    (split; [exists msg; reflexivity | split; reflexivity]).
Qed.

Lemma tag_length_assertions_witness :
  let bc := mkBuildConfig "firesim-rocket" "firesim-afis" long_triplet
              "firesim-rocket-build" None None (mkDispatcher true) false in
  let r := aws_create_afi example_tags_to_description
             (example_world 0 ["design.tar"] (pending_twice_then "available"))
             5 (OfBuildConfig bc) in
  (exists msg, outcome r = Raised (AssertionError msg))
  /\ count (is_local_at S3Cp) (trace r) = 0
  /\ count (is_local_at CreateFpgaImage) (trace r) = 0.
Proof.
  intros bc r.
  apply (tag_length_assertions example_tags_to_description
           (example_world 0 ["design.tar"] (pending_twice_then "available"))
           5 bc).
  left. vm_compute. reflexivity.
Defined.

(** With tags that fit, no run ends with an AssertionError. *)
Lemma no_assertion_error_when_tags_fit
    (fttd : string -> string -> string -> string) (w : World) (fuel : nat)
    (bc : BuildConfig) (msg : string) :
  tags_fit w bc ->
  outcome (aws_create_afi fttd w fuel (OfBuildConfig bc))
  <> Raised (AssertionError msg).
Proof.
  intros Hfit.
  destruct (Py.split (ls_tar_stdout w)) as [| x l] eqn:Hls.
  - rewrite (aws_create_afi_nothing_listed fttd w fuel bc Hfit Hls).
    discriminate.
  - assert (Hne : Py.split (ls_tar_stdout w) <> [])
      by (rewrite Hls; discriminate).
    destruct (aws_create_afi_submitted_cases fttd w fuel bc Hfit Hne)
      as [m [H | [H | H]]]; rewrite H; discriminate.
Qed.

(** C10.  In a run that submits the image, the description passed to
    [create-fpga-image] is built from the build triplet, the deploy tag
    and the commit tag; the deploy tag is the build triplet when
    [deploytriplet] is [None] or empty, and [deploytriplet] otherwise. *)
Theorem deploy_tag_defaults_to_build_triplet
    (fttd : string -> string -> string -> string) (w : World) (fuel : nat)
    (bc : BuildConfig) :
  tags_fit w bc ->
  Py.split (ls_tar_stdout w) <> [] ->
  let r := aws_create_afi fttd w fuel (OfBuildConfig bc) in
  let submitted_with tag :=
    ELocal CreateFpgaImage (Some (to_aws (pwd w) bc))
      (create_fpga_image_command (s3_bucketname bc)
         (last (Py.split (ls_tar_stdout w)) "" ++ global_append w) (name bc)
         (fttd (get_chisel_triplet bc) tag (tag_fsimcommit w))) in
  (Py.truthy (deploytriplet bc) = false ->
   tag_deploytriplet bc = get_chisel_triplet bc
   /\ filter (is_local_at CreateFpgaImage) (trace r)
      = [submitted_with (get_chisel_triplet bc)])
  /\ (forall d, deploytriplet bc = Some d -> d <> "" ->
      tag_deploytriplet bc = d
      /\ filter (is_local_at CreateFpgaImage) (trace r) = [submitted_with d]).
Proof.
  intros Hfit Hls r submitted_with. subst r submitted_with.
  assert (Hsub : filter (is_local_at CreateFpgaImage)
                   (trace (aws_create_afi fttd w fuel (OfBuildConfig bc)))
                 = [ELocal CreateFpgaImage (Some (to_aws (pwd w) bc))
                      (create_fpga_image_command (s3_bucketname bc)
                         (last (Py.split (ls_tar_stdout w)) ""
                            ++ global_append w) (name bc)
                         (fttd (get_chisel_triplet bc) (tag_deploytriplet bc)
                            (tag_fsimcommit w)))]).
  { destruct (aws_create_afi_submitted_cases fttd w fuel bc Hfit Hls)
      as [m [H | [H | H]]]; rewrite H; cbn [trace fst];
      filter_trace; reflexivity. }
  split.
  - intros Hfalsy.
    assert (Htag : tag_deploytriplet bc = get_chisel_triplet bc).
    { unfold tag_deploytriplet. now rewrite Hfalsy. }
    split; [exact Htag |]. now rewrite Hsub, Htag.
  - intros d Hd Hne.
    assert (Htag : tag_deploytriplet bc = d).
    { unfold tag_deploytriplet. rewrite Hd. cbn [Py.truthy Py.str].
      apply String.eqb_neq in Hne. now rewrite Hne. }
    split; [exact Htag |]. now rewrite Hsub, Htag.
Qed.

Lemma deploy_tag_defaults_to_build_triplet_witness :
  let w := example_world 0 ["design.tar"] (pending_twice_then "available") in
  let bc := example_config None false in
  tag_deploytriplet bc = "FireSim-FireSimRocketConfig-BaseF1Config"
  /\ filter (is_local_at CreateFpgaImage)
       (trace (aws_create_afi example_tags_to_description w 5
                 (OfBuildConfig bc)))
     = [ELocal CreateFpgaImage (Some (to_aws (pwd w) bc))
          (create_fpga_image_command "firesim-afis"
             ("design.tar" ++ global_append w) "firesim-rocket"
             (example_tags_to_description
                "FireSim-FireSimRocketConfig-BaseF1Config"
                "FireSim-FireSimRocketConfig-BaseF1Config" "6a1f0c2"))].
Proof.
  intros w bc.
  refine (proj1 (deploy_tag_defaults_to_build_triplet
                   example_tags_to_description w 5 bc _ _) _).
  - apply example_fits.
  - cbn. discriminate.
  - reflexivity.
Defined.


(** ** More on [build_bitstream] *)

(** X1.  On a local build host the results directory is fetched from
    [cl_dir] after the Vivado command whatever its exit status is: every
    run that is not a bypass starts with the set-up and the events of the
    Vivado stage, the download included, and it makes exactly the two
    rsync calls and the one Vivado run. *)
Theorem results_are_fetched_whatever_vivado_returns
    (fttd : string -> string -> string -> string) (w : World) (fuel : nat)
    (self : F1BitBuilder) :
  is_local (build_farm_host_dispatcher (build_config self)) = true ->
  let r := build_bitstream fttd w fuel self false in
  (exists rest,
     trace r = (setup_events w self ++ synthesis_events w self ++ rest)%list)
  /\ precedes
       (ERun BuildBitstreamSh
          (local_cl_dir w self ++ "/build-bitstream.sh " ++ local_cl_dir w self))
       (ERsync (local_results_dir (pwd w) (build_config self) ++ "/")
          (local_cl_dir w self) false)
       (trace r)
  /\ count is_rsync (trace r) = 2
  /\ count is_vivado_run (trace r) = 1.
Proof.
  intros Hlocal r. subst r.
  assert (Hshape : exists rest,
             trace (build_bitstream fttd w fuel self false)
             = (setup_events w self ++ synthesis_events w self ++ rest)%list
             /\ count is_rsync rest = 0 /\ count is_vivado_run rest = 0).
  { destruct (Z.eq_dec (return_code (vivado w)) 0) as [Hrc | Hrc].
    - rewrite (build_bitstream_vivado_passed fttd w fuel self Hlocal Hrc).
      eexists. split; [reflexivity | split; reflexivity].
    - rewrite (build_bitstream_vivado_failed fttd w fuel self Hlocal Hrc).
      rewrite on_build_failure_runs.
      destruct (has_build_host_dispatcher (build_config self));
        rewrite prefixed_pair; cbn [trace fst]; rewrite <- app_assoc;
        eexists; (split; [reflexivity | split; reflexivity]). }
  destruct Hshape as [rest (Ht & Hr1 & Hr2)]. rewrite Ht.
  split; [exists rest; reflexivity |]. split; [| split].
  - exists (setup_events w self
            ++ [ERsync (pwd w ++ "/../platforms/f1/build-bitstream.sh")
                  (local_cl_dir w self ++ "/") true;
                ELog Debug (stdout (rsync_script w));
                ELog Debug (stderr (rsync_script w))])%list.
    exists []. 
    exists ([ELog Debug (stdout (rsync_results w));
             ELog Debug (stderr (rsync_results w))] ++ rest)%list.
    unfold synthesis_events. rewrite <- !app_assoc. reflexivity.
  - rewrite !count_app, Hr1. reflexivity.
  - rewrite !count_app, Hr2. reflexivity.
Qed.

Lemma results_are_fetched_whatever_vivado_returns_witness :
  let w := example_world 2 ["design.tar"] (pending_twice_then "available") in
  count is_rsync
    (trace (build_bitstream example_tags_to_description w 5
              (example_builder None false) false)) = 2.
Proof.
  intros w.
  refine (proj1 (proj2 (proj2
            (results_are_fetched_whatever_vivado_returns
               example_tags_to_description w 5 (example_builder None false)
               _)))).
  reflexivity.
Defined.

(** X2.  When the dispatcher is not local, [build_bitstream] reaches for
    [self.remote_setup], which the class does not have: the run ends with
    AttributeError after the local [mkdir] and [cp], before any rsync and
    before the Vivado command; no notification is sent and no host is
    released. *)
Theorem remote_host_stops_before_vivado
    (fttd : string -> string -> string -> string) (w : World) (fuel : nat)
    (self : F1BitBuilder) :
  is_local (build_farm_host_dispatcher (build_config self)) = false ->
  let r := build_bitstream fttd w fuel self false in
  outcome r = Raised (AttributeError "F1BitBuilder" "remote_setup")
  /\ count is_run (trace r) = 2
  /\ count is_vivado_run (trace r) = 0
  /\ count is_rsync (trace r) = 0
  /\ count is_notification (trace r) = 0
  /\ count is_release_build_farm_host (trace r) = 0
  /\ count is_release_build_host (trace r) = 0.
Proof.
  intros Hremote r. subst r.
  rewrite (build_bitstream_remote fttd w fuel self Hremote).
  repeat split.
Qed.

Lemma remote_host_stops_before_vivado_witness :
  outcome (build_bitstream example_tags_to_description
             (example_world 0 ["design.tar"] (pending_twice_then "available"))
             5 remote_example_builder false)
  = Raised (AttributeError "F1BitBuilder" "remote_setup").
Proof.
  refine (proj1 (remote_host_stops_before_vivado example_tags_to_description
                   (example_world 0 ["design.tar"]
                      (pending_twice_then "available"))
                   5 remote_example_builder _)).
  reflexivity.
Defined.

(** X3.  After a failed Vivado run on a local host the failure
    notification and its two log lines come first and the release is
    tried last.  If the configuration has [build_host_dispatcher] the run
    returns, its last event being that release; if not, AttributeError
    leaves [build_bitstream], the notification already sent. *)
Theorem failure_is_reported_before_the_release
    (fttd : string -> string -> string -> string) (w : World) (fuel : nat)
    (self : F1BitBuilder) :
  is_local (build_farm_host_dispatcher (build_config self)) = true ->
  return_code (vivado w) <> 0%Z ->
  let r := build_bitstream fttd w fuel self false in
  let notice :=
    ENotify "FireSim FPGA Build Failed"
      ("Your FPGA build failed for triplet: "
         ++ get_chisel_triplet (build_config self)) in
  (has_build_host_dispatcher (build_config self) = true ->
   outcome r = Returned tt
   /\ precedes notice EReleaseBuildHost (trace r)
   /\ last (trace r) notice = EReleaseBuildHost)
  /\ (has_build_host_dispatcher (build_config self) = false ->
      outcome r = Raised (AttributeError "BuildConfig" "build_host_dispatcher")
      /\ filter is_notification (trace r) = [notice]
      /\ count is_release_build_host (trace r) = 0).
Proof.
  intros Hlocal Hrc r notice. subst r notice.
  rewrite (build_bitstream_vivado_failed fttd w fuel self Hlocal Hrc).
  rewrite on_build_failure_runs.
  split; intros Hhas; rewrite Hhas, prefixed_pair; cbn [trace outcome fst snd].
  - split; [reflexivity |]. split.
    + exists (setup_events w self ++ synthesis_events w self)%list.
      exists [ELog Info "FireSim FPGA Build Failed";
              ELog Info ("Your FPGA build failed for triplet: "
                           ++ get_chisel_triplet (build_config self))].
      exists []. unfold failure_events.
      rewrite <- !app_assoc. reflexivity.
    + rewrite !app_assoc. apply last_last.
  - split; [reflexivity |]. split; filter_trace; reflexivity.
Qed.

Lemma failure_is_reported_before_the_release_witness :
  let w := example_world 2 ["design.tar"] (pending_twice_then "available") in
  outcome (build_bitstream example_tags_to_description w 5
             (example_builder None false) false)
  = Raised (AttributeError "BuildConfig" "build_host_dispatcher").
Proof.
  intros w.
  refine (proj1 (proj2 (failure_is_reported_before_the_release
                          example_tags_to_description w 5
                          (example_builder None false) _ _) _)).
  - reflexivity.
  - cbn. discriminate.
  - reflexivity.
Defined.

(** ** More on [aws_create_afi] *)

(** X4.  The three length checks run in source order and stop at the
    first that fails.  A build triplet over 255 characters, or a deploy
    tag over 255, ends the call right after [pwd], before the git
    commands; only a commit tag over 255 is met after both git commands,
    and still before the artifact listing.  Each failure carries the
    message of its own assertion. *)
Theorem assertions_run_in_order
    (fttd : string -> string -> string -> string) (w : World) (fuel : nat)
    (bc : BuildConfig) :
  let r := aws_create_afi fttd w fuel (OfBuildConfig bc) in
  ((Py.len (get_chisel_triplet bc) > 255)%Z ->
   r = ([ELocal Pwd None "pwd"],
        Raised (AssertionError
          "ERR: aws does not support tags longer than 256 chars for buildtriplet")))
  /\ ((Py.len (get_chisel_triplet bc) <= 255)%Z ->
      (Py.len (tag_deploytriplet bc) > 255)%Z ->
      r = ([ELocal Pwd None "pwd"],
           Raised (AssertionError
             "ERR: aws does not support tags longer than 256 chars for deploytriplet")))
  /\ ((Py.len (get_chisel_triplet bc) <= 255)%Z ->
      (Py.len (tag_deploytriplet bc) <= 255)%Z ->
      (Py.len (tag_fsimcommit w) > 255)%Z ->
      r = ([ELocal Pwd None "pwd";
            ELocal GitStatus None
              "if [[ $(git status --porcelain) ]]; then echo '-dirty'; fi";
            ELocal GitRevParse None "git rev-parse HEAD"],
           Raised (AssertionError
             "ERR: aws does not support tags longer than 256 chars for fsimcommit"))).
Proof.
  cbv zeta. split; [| split].
  - intros H1. apply Z.gt_lt, Z.leb_gt in H1.
    unfold aws_create_afi, assert. py_step. rewrite H1. reflexivity.
  - intros H1 H2. apply Z.leb_le in H1. apply Z.gt_lt, Z.leb_gt in H2.
    unfold aws_create_afi, assert. py_step. rewrite H1. py_step.
    rewrite H2. reflexivity.
  - intros H1 H2 H3. apply Z.leb_le in H1, H2.
    apply Z.gt_lt, Z.leb_gt in H3. unfold tag_fsimcommit in H3.
    unfold aws_create_afi, assert. py_step. rewrite H1. py_step.
    rewrite H2. py_step. cbn [quiet stdout]. rewrite H3. reflexivity.
Qed.

Lemma assertions_run_in_order_witness :
  let bc := mkBuildConfig "firesim-rocket" "firesim-afis" long_triplet
              "firesim-rocket-build" None None (mkDispatcher true) false in
  aws_create_afi example_tags_to_description
    (example_world 0 ["design.tar"] (pending_twice_then "available"))
    5 (OfBuildConfig bc)
  = ([ELocal Pwd None "pwd"],
     Raised (AssertionError
       "ERR: aws does not support tags longer than 256 chars for buildtriplet")).
Proof.
  intros bc.
  refine (proj1 (assertions_run_in_order example_tags_to_description
                   (example_world 0 ["design.tar"]
                      (pending_twice_then "available")) 5 bc) _).
  vm_compute. reflexivity.
Defined.

(** X5.  In every run that gets past the listing, however long it polls,
    there is exactly one upload and exactly one image submission, made in
    that order from the [to_aws] directory.  The upload writes the last
    listed file to [dcp/] followed by the key, the file name with the
    host and the random characters appended; the submission has
    [Key=dcp/] followed by that same key as its input location, in the
    same bucket. *)
Theorem image_is_made_from_the_uploaded_object
    (fttd : string -> string -> string -> string) (w : World) (fuel : nat)
    (bc : BuildConfig) :
  tags_fit w bc ->
  Py.split (ls_tar_stdout w) <> [] ->
  let r := aws_create_afi fttd w fuel (OfBuildConfig bc) in
  let tarfile := last (Py.split (ls_tar_stdout w)) "" in
  let key :=
    tarfile ++ "-" ++ host_string w ++ "-" ++ random_suffix w ++ ".tar" in
  let upload :=
    ELocal S3Cp (Some (to_aws (pwd w) bc))
      ("aws s3 cp " ++ tarfile ++ " s3://" ++ s3_bucketname bc
         ++ "/dcp/" ++ key) in
  let submission :=
    ELocal CreateFpgaImage (Some (to_aws (pwd w) bc))
      ("aws ec2 create-fpga-image --input-storage-location Bucket="
         ++ s3_bucketname bc ++ ",Key=dcp/" ++ key
         ++ " --logs-storage-location Bucket=" ++ s3_bucketname bc
         ++ ",Key=logs/ --name " ++ dquote ++ name bc ++ dquote
         ++ " --description " ++ dquote ++ description fttd w bc ++ dquote
         ++ " ") in
  filter (is_local_at S3Cp) (trace r) = [upload]
  /\ filter (is_local_at CreateFpgaImage) (trace r) = [submission]
  /\ precedes upload submission (trace r).
Proof.
  intros Hfit Hls r tarfile key upload submission.
  assert (Hup : upload
                = ELocal S3Cp (Some (to_aws (pwd w) bc))
                    (s3_cp_command tarfile (s3_bucketname bc)
                       (tarfile ++ global_append w))) by reflexivity.
  assert (Hsub : submission
                 = ELocal CreateFpgaImage (Some (to_aws (pwd w) bc))
                     (create_fpga_image_command (s3_bucketname bc)
                        (tarfile ++ global_append w) (name bc)
                        (description fttd w bc))).
  { unfold submission, create_fpga_image_command, key, global_append.
    cbn [String.append]. rewrite !append_assoc. reflexivity. }
  rewrite Hup, Hsub. clear Hup Hsub upload submission key. subst r tarfile.
  assert (Hpre : forall rest,
            precedes
              (ELocal S3Cp (Some (to_aws (pwd w) bc))
                 (s3_cp_command (last (Py.split (ls_tar_stdout w)) "")
                    (s3_bucketname bc)
                    (last (Py.split (ls_tar_stdout w)) ""
                       ++ global_append w)))
              (ELocal CreateFpgaImage (Some (to_aws (pwd w) bc))
                 (create_fpga_image_command (s3_bucketname bc)
                    (last (Py.split (ls_tar_stdout w)) ""
                       ++ global_append w)
                    (name bc) (description fttd w bc)))
              (submission_events fttd w bc
                 (last (Py.split (ls_tar_stdout w)) "") ++ rest)%list).
  { intros rest. unfold precedes.
    exists [ ELocal Pwd None "pwd";
             ELocal GitStatus None
               "if [[ $(git status --porcelain) ]]; then echo '-dirty'; fi";
             ELocal GitRevParse None "git rev-parse HEAD";
             ELocal LsTar (Some (to_aws (pwd w) bc)) "ls *.tar";
             ELog Debug (ls_tar_stdout w);
             ELog Debug (ls_stderr w) ].
    exists [ ELog Debug (stdout (s3_cp w)); ELog Debug (stderr (s3_cp w)) ].
    exists ([ ELog Debug (stdout (create_fpga_image w));
              ELog Debug (stderr (create_fpga_image w));
              ELog Debug ("create-fpge-image result: "
                            ++ stdout (create_fpga_image w));
              ELog Info ("Resulting AGFI: " ++ FpgaImageGlobalId w);
              ELog Info ("Resulting AFI: " ++ FpgaImageId w);
              ELog Info "Waiting for create-fpga-image completion." ]
            ++ rest)%list.
    reflexivity. }
  destruct (aws_create_afi_submitted_cases fttd w fuel bc Hfit Hls)
    as [m [H | [H | H]]]; rewrite H; cbn [trace fst];
    (split; [filter_trace; reflexivity |
             split; [filter_trace; reflexivity | apply Hpre]]).
Qed.

Lemma image_is_made_from_the_uploaded_object_witness :
  let w := example_world 0 ["design.tar"] (pending_twice_then "available") in
  let bc := example_config None false in
  let r := aws_create_afi example_tags_to_description w 5 (OfBuildConfig bc) in
  filter (is_local_at S3Cp) (trace r)
  = [ELocal S3Cp (Some (to_aws (pwd w) bc))
       "aws s3 cp design.tar s3://firesim-afis/dcp/design.tar-192.168.0.7-Q7R1Z0AB3K.tar"]
  /\ filter (is_local_at CreateFpgaImage) (trace r)
     = [ELocal CreateFpgaImage (Some (to_aws (pwd w) bc))
          ("aws ec2 create-fpga-image --input-storage-location Bucket=firesim-afis,Key=dcp/design.tar-192.168.0.7-Q7R1Z0AB3K.tar --logs-storage-location Bucket=firesim-afis,Key=logs/ --name "
             ++ dquote ++ "firesim-rocket" ++ dquote ++ " --description "
             ++ dquote ++ description example_tags_to_description w bc
             ++ dquote ++ " ")].
Proof.
  intros w bc r.
  destruct (image_is_made_from_the_uploaded_object
              example_tags_to_description w 5 bc
              (example_fits 0 ["design.tar"]
                 (pending_twice_then "available") None false)
              ltac:(cbn; discriminate))
    as [Hup [Hsub _]].
  split; [exact Hup | exact Hsub].
Defined.

(** ** The key in the staging bucket *)

Lemma length_append (a b : string) :
  String.length (a ++ b) = String.length a + String.length b.
Proof. induction a as [| c a IH]; cbn; [reflexivity | now rewrite IH]. Qed.

Lemma append_cancel_l (a b c : string) : a ++ b = a ++ c -> b = c.
Proof.
  induction a as [| x a IH]; cbn; intros H; [exact H |].
  injection H as H. now apply IH.
Qed.

(** Two concatenations whose second parts have the same length agree
    part by part. *)
Lemma append_same_length_tail (a1 a2 b1 b2 : string) :
  String.length b1 = String.length b2 ->
  a1 ++ b1 = a2 ++ b2 -> a1 = a2 /\ b1 = b2.
Proof.
  revert a2. induction a1 as [| x a1 IH]; intros a2 Hlen H.
  - destruct a2 as [| y a2]; [split; [reflexivity | exact H] |].
    exfalso. cbn in H. rewrite H in Hlen. cbn in Hlen.
    rewrite length_append in Hlen. lia.
  - destruct a2 as [| y a2].
    + exfalso. cbn in H. rewrite <- H in Hlen. cbn in Hlen.
      rewrite length_append in Hlen. lia.
    + cbn in H. injection H as Hxy H.
      destruct (IH a2 Hlen H) as [Ha Hb]. subst. split; reflexivity.
Qed.

(** X6.  Two submissions of an artifact of the same name get the same key
    only from the same host and the same random characters: with random
    suffixes of one length (the source draws ten characters), a different
    host string or a different suffix gives a different key. *)
Theorem staging_key_tells_submissions_apart
    (w1 w2 : World) (tarfile : string) :
  String.length (random_suffix w1) = String.length (random_suffix w2) ->
  s3_tarfile w1 tarfile = s3_tarfile w2 tarfile ->
  host_string w1 = host_string w2 /\ random_suffix w1 = random_suffix w2.
Proof.
  intros Hlen Hkey. unfold s3_tarfile, global_append in Hkey.
  apply append_cancel_l in Hkey.
  apply (append_cancel_l "-") in Hkey.
  apply append_same_length_tail in Hkey.
  - destruct Hkey as [Hhost Htail]. split; [exact Hhost |].
    apply (append_cancel_l "-") in Htail.
    apply append_same_length_tail in Htail; [tauto | reflexivity].
  - cbn [String.append String.length]. rewrite !length_append. cbn. lia.
Qed.

Lemma staging_key_tells_submissions_apart_witness :
  let w1 := example_world 0 ["design.tar"] (pending_twice_then "available") in
  let w2 := example_world 2 [] (pending_twice_then "failed") in
  host_string w1 = host_string w2 /\ random_suffix w1 = random_suffix w2.
Proof.
  intros w1 w2.
  exact (staging_key_tells_submissions_apart w1 w2 "design.tar"
           eq_refl eq_refl).
Defined.

(** ** Time and order in a run that ends *)

Lemma slept_app (t1 t2 : list Event) :
  slept (t1 ++ t2) = (slept t1 + slept t2)%Z.
Proof.
  induction t1 as [| e t1 IH]; [reflexivity |].
  destruct e; cbn [app slept]; rewrite IH; lia.
Qed.

Lemma slept_polls (w : World) (dir afi : string) (m k : nat) :
  slept (polls w dir afi k m) = (10 * Z.of_nat m)%Z.
Proof.
  revert k. induction m as [| m IH]; intros k; [reflexivity |].
  rewrite polls_S, slept_app, IH.
  cbn [polls seq flat_map app slept]. lia.
Qed.

Lemma slept_completion (w : World) (bc : BuildConfig) :
  slept (completion_events w bc) = 0%Z.
Proof.
  unfold completion_events, hook_events.
  destruct (Py.truthy (post_build_hook bc)); reflexivity.
Qed.

(** X7.  A call that sees the image leave [pending] at poll [n] has slept
    ten seconds after each of its [n + 1] polls, the last one included:
    [10 * (n + 1)] seconds in all, whether it then returns [True] or
    [None]. *)
Theorem time_slept_while_waiting
    (fttd : string -> string -> string -> string) (w : World) (fuel : nat)
    (bc : BuildConfig) (n : nat) :
  tags_fit w bc ->
  Py.split (ls_tar_stdout w) <> [] ->
  settles_at w n -> n < fuel ->
  let r := aws_create_afi fttd w fuel (OfBuildConfig bc) in
  slept (trace r) = (10 * (Z.of_nat n + 1))%Z
  /\ count is_sleep (trace r) = S n
  /\ exists before after,
       trace r
       = (before
            ++ [ELog Info ("Current state: " ++ describe_state_code w n);
                ESleep 10]
            ++ after)%list
       /\ count is_sleep after = 0.
Proof.
  intros Hfit Hls Hset Hfuel r. subst r.
  rewrite (aws_create_afi_settled fttd w fuel bc n Hfit Hls Hset Hfuel).
  assert (Hlast : polls w (local_results_dir (pwd w) bc) (FpgaImageId w) 0
                    (S n)
                  = (polls w (local_results_dir (pwd w) bc) (FpgaImageId w)
                       0 n
                     ++ polls w (local_results_dir (pwd w) bc)
                          (FpgaImageId w) n 1)%list).
  { unfold polls. rewrite seq_S, flat_map_app. reflexivity. }
  assert (Hsleeps : forall rest,
            count is_sleep rest = 0 ->
            count is_sleep
              (submission_events fttd w bc
                 (last (Py.split (ls_tar_stdout w)) "")
               ++ polls w (local_results_dir (pwd w) bc) (FpgaImageId w) 0
                    (S n)
               ++ rest)%list = S n).
  { intros rest Hrest. rewrite !count_app, Hrest.
    rewrite (count_polls w (local_results_dir (pwd w) bc) (FpgaImageId w)
               is_sleep false false true)
      by (intros; reflexivity).
    replace (count is_sleep
               (submission_events fttd w bc
                  (last (Py.split (ls_tar_stdout w)) ""))) with 0
      by reflexivity.
    lia. }
  assert (Hsplit : forall rest,
            (submission_events fttd w bc
               (last (Py.split (ls_tar_stdout w)) "")
             ++ polls w (local_results_dir (pwd w) bc) (FpgaImageId w) 0
                  (S n)
             ++ rest)%list
            = ((submission_events fttd w bc
                  (last (Py.split (ls_tar_stdout w)) "")
                ++ polls w (local_results_dir (pwd w) bc) (FpgaImageId w)
                     0 n
                ++ [ELocal DescribeFpgaImages
                      (Some (local_results_dir (pwd w) bc))
                      ("aws ec2 describe-fpga-images --fpga-image-id "
                         ++ FpgaImageId w ++ " | tee AGFI_INFO")])
               ++ [ELog Info
                     ("Current state: " ++ describe_state_code w n);
                   ESleep 10]
               ++ rest)%list).
  { intros rest. rewrite Hlast. cbn [polls seq flat_map].
    rewrite <- !app_assoc. reflexivity. }
  assert (Hdone : count is_sleep (completion_events w bc) = 0).
  { unfold completion_events, hook_events.
    destruct (Py.truthy (post_build_hook bc)); reflexivity. }
  destruct (describe_state_code w n =? "available")%string;
    cbn [trace fst].
  - split; [| split].
    + rewrite !slept_app, slept_polls, slept_completion.
      replace (slept (submission_events fttd w bc
                        (last (Py.split (ls_tar_stdout w)) ""))) with 0%Z
        by reflexivity.
      lia.
    + apply Hsleeps. exact Hdone.
    + eexists. exists (completion_events w bc).
      split; [apply Hsplit | exact Hdone].
  - rewrite <- (app_nil_r (polls _ _ _ _ _)).
    split; [| split].
    + rewrite !slept_app, slept_polls.
      replace (slept (submission_events fttd w bc
                        (last (Py.split (ls_tar_stdout w)) ""))) with 0%Z
        by reflexivity.
      cbn [slept]. lia.
    + apply Hsleeps. reflexivity.
    + eexists. exists []. split; [apply Hsplit | reflexivity].
Qed.

Lemma time_slept_while_waiting_witness :
  let w := example_world 0 ["design.tar"] (pending_twice_then "available") in
  slept (trace (aws_create_afi example_tags_to_description w 5
                  (OfBuildConfig (example_config None false)))) = 30%Z.
Proof.
  intros w.
  exact (proj1 (time_slept_while_waiting example_tags_to_description w 5
                  (example_config None false) 2
                  (example_fits 0 ["design.tar"]
                     (pending_twice_then "available") None false)
                  ltac:(cbn; discriminate)
                  (pending_twice_then_settles 0 ["design.tar"] "available"
                     ltac:(discriminate))
                  ltac:(lia))).
Defined.

(** X8.  In the [available] branch the order is: copy to all regions,
    success notification, registry entry, hook.  So the hook, when one is
    configured, starts after the entry file has been written and the
    notification sent, and nothing but its two log lines and the closing
    log line follows it. *)
Theorem hook_runs_after_the_entry_is_written
    (fttd : string -> string -> string -> string) (w : World) (fuel : nat)
    (bc : BuildConfig) (n : nat) :
  tags_fit w bc ->
  Py.split (ls_tar_stdout w) <> [] ->
  settles_at w n -> n < fuel ->
  describe_state_code w n = "available" ->
  Py.truthy (post_build_hook bc) = true ->
  let r := aws_create_afi fttd w fuel (OfBuildConfig bc) in
  let copy := ECopyAfiToAllRegions (FpgaImageId w) in
  let notice :=
    ENotify "FireSim FPGA Build Completed"
      (message_body (agfi_entry (name bc) (FpgaImageGlobalId w))) in
  let entry :=
    EWriteFile (hwdb_entry_file_location (pwd w) ++ "/" ++ name bc)
      (agfi_entry (name bc) (FpgaImageGlobalId w)) in
  let hook_call :=
    ELocal PostBuildHook None
      (Py.str (post_build_hook bc) ++ " " ++ local_results_dir (pwd w) bc) in
  precedes copy notice (trace r)
  /\ precedes notice entry (trace r)
  /\ precedes entry hook_call (trace r)
  /\ exists before,
       trace r
       = (before
            ++ [hook_call;
                ELog Debug ("[localhost] " ++ stdout (hook w));
                ELog Debug ("[localhost] " ++ stderr (hook w));
                ELog Info ("Build complete! AFI ready. See "
                             ++ path_join (hwdb_entry_file_location (pwd w))
                                  (name bc)
                             ++ ".")])%list.
Proof.
  intros Hfit Hls Hset Hfuel Hav Hhook r copy notice entry hook_call.
  subst r copy notice entry hook_call.
  rewrite (aws_create_afi_settled fttd w fuel bc n Hfit Hls Hset Hfuel).
  rewrite Hav. cbn [String.eqb Ascii.eqb Bool.eqb]. cbn [trace fst].
  unfold completion_events, hook_events. rewrite Hhook.
  set (head := (submission_events fttd w bc
                  (last (Py.split (ls_tar_stdout w)) "")
                ++ polls w (local_results_dir (pwd w) bc) (FpgaImageId w) 0
                     (S n))%list).
  rewrite (app_assoc _ (polls _ _ _ _ _)). fold head.
  split; [| split; [| split]].
  - exists head, []. eexists. cbn [app]. reflexivity.
  - exists (head ++ [ECopyAfiToAllRegions (FpgaImageId w)])%list.
    eexists [_; _; _]. eexists.
    rewrite <- !app_assoc. cbn [app]. reflexivity.
  - exists (head
            ++ [ECopyAfiToAllRegions (FpgaImageId w);
                ENotify "FireSim FPGA Build Completed"
                  (message_body (agfi_entry (name bc) (FpgaImageGlobalId w)));
                ELog Info "FireSim FPGA Build Completed";
                ELog Info
                  (message_body (agfi_entry (name bc) (FpgaImageGlobalId w)));
                ELocal MkdirHwdb None
                  ("mkdir -p " ++ hwdb_entry_file_location (pwd w))])%list.
    exists []. eexists. rewrite <- !app_assoc. cbn [app]. reflexivity.
  - eexists (head ++ [_; _; _; _; _; _])%list.
    rewrite <- !app_assoc. cbn [app]. reflexivity.
Qed.

Lemma hook_runs_after_the_entry_is_written_witness :
  let w := example_world 0 ["design.tar"] (pending_twice_then "available") in
  let bc := example_config (Some "./notify.sh") false in
  precedes
    (EWriteFile (hwdb_entry_file_location (pwd w) ++ "/" ++ name bc)
       (agfi_entry (name bc) (FpgaImageGlobalId w)))
    (ELocal PostBuildHook None
       (Py.str (post_build_hook bc) ++ " " ++ local_results_dir (pwd w) bc))
    (trace (aws_create_afi example_tags_to_description w 5
              (OfBuildConfig bc))).
Proof.
  intros w bc.
  exact (proj1 (proj2 (proj2
           (hook_runs_after_the_entry_is_written
              example_tags_to_description w 5 bc 2
              (example_fits 0 ["design.tar"]
                 (pending_twice_then "available") (Some "./notify.sh") false)
              ltac:(cbn; discriminate)
              (pending_twice_then_settles 0 ["design.tar"] "available"
                 ltac:(discriminate))
              ltac:(lia) eq_refl eq_refl)))).
Defined.

Lemma message_body_contains_entry (entry : string) :
  message_body entry
  = ("Your AGFI has been created!" ++ newline ++ "Add" ++ newline ++ newline)
      ++ entry
      ++ (newline
            ++ "to your config_hwdb.yaml to use this hardware configuration.").
Proof. unfold message_body. now rewrite !append_assoc. Qed.

(** X9.  The entry mailed is the entry written: the body of the success
    notification holds, between its fixed first and last lines, exactly
    the text that is written to the registry file, and the same body is
    logged. *)
Theorem mailed_entry_is_the_written_entry
    (fttd : string -> string -> string -> string) (w : World) (fuel : nat)
    (bc : BuildConfig) (n : nat) :
  tags_fit w bc ->
  Py.split (ls_tar_stdout w) <> [] ->
  settles_at w n -> n < fuel ->
  describe_state_code w n = "available" ->
  let r := aws_create_afi fttd w fuel (OfBuildConfig bc) in
  exists path entry,
    let body :=
      ("Your AGFI has been created!" ++ newline ++ "Add" ++ newline
         ++ newline)
        ++ entry
        ++ (newline
              ++ "to your config_hwdb.yaml to use this hardware configuration.")
    in
    filter is_write_file (trace r) = [EWriteFile path entry]
    /\ filter is_notification (trace r)
       = [ENotify "FireSim FPGA Build Completed" body]
    /\ In (ELog Info body) (trace r).
Proof.
  intros Hfit Hls Hset Hfuel Hav r. subst r.
  rewrite (aws_create_afi_settled fttd w fuel bc n Hfit Hls Hset Hfuel).
  rewrite Hav. cbn [String.eqb Ascii.eqb Bool.eqb]. cbn [trace fst].
  exists (hwdb_entry_file_location (pwd w) ++ "/" ++ name bc).
  exists (agfi_entry (name bc) (FpgaImageGlobalId w)).
  cbv zeta. rewrite <- message_body_contains_entry.
  split; [filter_trace; reflexivity |].
  split; [filter_trace; reflexivity |].
  apply in_or_app. right. apply in_or_app. right.
  unfold completion_events. apply in_or_app. left. cbn. auto.
Qed.

Lemma mailed_entry_is_the_written_entry_witness :
  let w := example_world 0 ["design.tar"] (pending_twice_then "available") in
  exists path entry,
    filter is_write_file
      (trace (aws_create_afi example_tags_to_description w 5
                (OfBuildConfig (example_config None false))))
    = [EWriteFile path entry].
Proof.
  intros w.
  destruct (mailed_entry_is_the_written_entry
              example_tags_to_description w 5 (example_config None false) 2
              (example_fits 0 ["design.tar"]
                 (pending_twice_then "available") None false)
              ltac:(cbn; discriminate)
              (pending_twice_then_settles 0 ["design.tar"] "available"
                 ltac:(discriminate))
              ltac:(lia) eq_refl)
    as [path [entry [H _]]].
  exists path, entry. exact H.
Defined.

(** ** What [aws_create_afi] never does *)

Lemma count_polls_other (w : World) (dir afi : string) (p : Event -> bool)
    (m k : nat) :
  (forall cwd cmd, p (ELocal DescribeFpgaImages cwd cmd) = false) ->
  (forall msg, p (ELog Info msg) = false) ->
  p (ESleep 10) = false ->
  count p (polls w dir afi k m) = 0.
Proof.
  intros Ha Hb Hc.
  rewrite (count_polls w dir afi p false false false Ha Hb Hc). lia.
Qed.

Lemma forallb_polls (w : World) (dir afi : string) (m k : nat) :
  forallb stays_on_manager (polls w dir afi k m) = true.
Proof.
  revert k. induction m as [| m IH]; intros k; [reflexivity |].
  rewrite polls_S, forallb_app, IH. reflexivity.
Qed.

Lemma forallb_completion (w : World) (bc : BuildConfig) :
  forallb stays_on_manager (completion_events w bc) = true.
Proof.
  unfold completion_events, hook_events.
  destruct (Py.truthy (post_build_hook bc)); reflexivity.
Qed.

(** X10.  Whatever it is called on and however it ends, [aws_create_afi]
    runs nothing on the build host, starts no rsync, releases no host and
    sends no failure notification: all its commands are local ones. *)
Theorem aws_create_afi_stays_on_the_manager
    (fttd : string -> string -> string -> string) (w : World) (fuel : nat)
    (build_config : Receiver) :
  let r := aws_create_afi fttd w fuel build_config in
  forallb stays_on_manager (trace r) = true
  /\ count is_run (trace r) = 0
  /\ count is_rsync (trace r) = 0
  /\ count is_release_build_farm_host (trace r) = 0
  /\ count is_release_build_host (trace r) = 0
  /\ count is_failure_notification (trace r) = 0.
Proof.
  cbv zeta.
  assert (Hgen : forall t,
            forallb stays_on_manager t = true ->
            count is_run t = 0 /\ count is_rsync t = 0
            /\ count is_release_build_farm_host t = 0
            /\ count is_release_build_host t = 0
            /\ count is_failure_notification t = 0).
  { induction t as [| e t IH]; [repeat split |].
    cbn [forallb]. intros H. apply andb_prop in H as [He Ht].
    destruct (IH Ht) as (I1 & I2 & I3 & I4 & I5).
    unfold count in *.
    destruct e; cbn in He; try discriminate;
      cbn [filter is_run is_rsync is_release_build_farm_host
           is_release_build_host is_failure_notification];
      try (repeat split; assumption).
    apply String.eqb_eq in He. subst title.
    cbn [String.eqb Ascii.eqb Bool.eqb]. repeat split; assumption. }
  assert (Hall : forallb stays_on_manager
                   (trace (aws_create_afi fttd w fuel build_config)) = true).
  { destruct build_config as [bc | self].
    - destruct (tags_fit_dec w bc) as [Hfit | Hnot].
      + destruct (Py.split (ls_tar_stdout w)) as [| x l] eqn:Hls.
        * rewrite (aws_create_afi_nothing_listed fttd w fuel bc Hfit Hls).
          reflexivity.
        * assert (Hne : Py.split (ls_tar_stdout w) <> [])
            by (rewrite Hls; discriminate).
          destruct (aws_create_afi_submitted_cases fttd w fuel bc Hfit Hne)
            as [m [H | [H | H]]]; rewrite H; cbn [trace fst];
            rewrite !forallb_app, ?forallb_polls, ?forallb_completion;
            reflexivity.
      + destruct (aws_create_afi_tags_too_long fttd w fuel bc Hnot)
          as [msg [H | H]]; rewrite H; reflexivity.
    - rewrite aws_create_afi_of_builder. reflexivity. }
  split; [exact Hall | exact (Hgen _ Hall)].
Qed.

(** ** When [aws_create_afi] returns, and what *)

Lemma settles_or_pending (w : World) (fuel : nat) :
  (exists n, n < fuel /\ settles_at w n) \/ pending_through w fuel.
Proof.
  induction fuel as [| fuel IH].
  - right. intros j Hj. lia.
  - destruct IH as [[n [Hn Hset]] | Hpend].
    + left. exists n. split; [lia | exact Hset].
    + destruct (String.eqb_spec (describe_state_code w fuel) "pending")
        as [Heq | Hne].
      * right. intros j Hj.
        destruct (Nat.eq_dec j fuel) as [-> | Hjf]; [exact Heq |].
        apply Hpend. lia.
      * left. exists fuel. split; [lia |]. split; assumption.
Qed.

(** X11.  What the returned value tells.  If [aws_create_afi] returns
    [True], some poll was answered with a state other than [pending] and
    the first such state was [available]; if it returns [None], the first
    such state was another one.  It never returns [False], and it does
    not return as long as every answer is [pending]. *)
Theorem returned_value_tells_the_first_settled_state
    (fttd : string -> string -> string -> string) (w : World) (fuel : nat)
    (bc : BuildConfig) :
  let r := aws_create_afi fttd w fuel (OfBuildConfig bc) in
  (outcome r = Returned (Some true) ->
   exists n, n < fuel /\ settles_at w n
             /\ describe_state_code w n = "available")
  /\ (outcome r = Returned None ->
      exists n, n < fuel /\ settles_at w n
                /\ describe_state_code w n <> "available")
  /\ outcome r <> Returned (Some false)
  /\ (pending_through w fuel -> forall v, outcome r <> Returned v).
Proof.
  cbv zeta.
  destruct (tags_fit_dec w bc) as [Hfit | Hnot].
  2:{ destruct (aws_create_afi_tags_too_long fttd w fuel bc Hnot)
        as [msg [H | H]]; rewrite H; cbn [outcome snd];
        (split; [discriminate | split; [discriminate |
           split; [discriminate | intros _ v; discriminate]]]). }
  destruct (Py.split (ls_tar_stdout w)) as [| x l] eqn:Hls.
  { rewrite (aws_create_afi_nothing_listed fttd w fuel bc Hfit Hls).
    cbn [outcome snd].
    split; [discriminate | split; [discriminate |
      split; [discriminate | intros _ v; discriminate]]]. }
  assert (Hne : Py.split (ls_tar_stdout w) <> [])
    by (rewrite Hls; discriminate).
  destruct (settles_or_pending w fuel) as [[n [Hn Hset]] | Hpend].
  - rewrite (aws_create_afi_settled fttd w fuel bc n Hfit Hne Hset Hn).
    assert (Hnot : ~ pending_through w fuel).
    { intros Hp. destruct Hset as [_ Hs]. apply Hs, Hp, Hn. }
    destruct (String.eqb_spec (describe_state_code w n) "available")
      as [Hav | Hav]; cbn [outcome snd].
    + split; [intros _; exists n; auto |].
      split; [discriminate |]. split; [discriminate |].
      intros Hp. contradiction.
    + split; [discriminate |].
      split; [intros _; exists n; auto |]. split; [discriminate |].
      intros Hp. contradiction.
  - rewrite (aws_create_afi_submits fttd w fuel bc Hfit Hne).
    rewrite (wait_for_image_still_polling w _ _ fuel 0) by exact Hpend.
    cbn [after_polling outcome prefixed snd].
    split; [discriminate | split; [discriminate |
      split; [discriminate | intros _ v; discriminate]]].
Qed.

Lemma returned_value_tells_the_first_settled_state_witness :
  let w := example_world 0 ["design.tar"] (pending_twice_then "available") in
  exists n, n < 5 /\ settles_at w n /\ describe_state_code w n = "available".
Proof.
  intros w.
  refine (proj1 (returned_value_tells_the_first_settled_state
                   example_tags_to_description w 5
                   (example_config None false)) _).
  vm_compute. reflexivity.
Defined.

(** ** A listed name with a blank in it *)

Lemma split_from_nonempty_word (b : string) :
  plain_name b -> Py.split_from b "" = [b].
Proof.
  intros [Hne Hsp]. pose proof (split_from_word b Hsp "" "") as H.
  rewrite append_empty_r in H. rewrite H. cbn [String.append Py.split_from].
  apply String.eqb_neq in Hne. now rewrite Hne.
Qed.

Lemma last_cons_nonempty (x : string) (l : list string) (d : string) :
  l <> [] -> last (x :: l) d = last l d.
Proof. destruct l; [congruence | reflexivity]. Qed.

(** Whatever comes before a blank, the words end with the plain word
    after it. *)
Lemma split_from_ends_with_last_word (b : string) :
  plain_name b ->
  forall s word,
    Py.split_from (s ++ String " " b) word <> []
    /\ last (Py.split_from (s ++ String " " b) word) "" = b.
Proof.
  intros Hb. pose proof (split_from_nonempty_word b Hb) as Hlast.
  induction s as [| c s IH]; intros word.
  - cbn [String.append Py.split_from].
    change (Py.isspace " ") with true. cbv iota.
    destruct (word =? "")%string; rewrite Hlast;
      (split; [discriminate | reflexivity]).
  - cbn [String.append Py.split_from].
    destruct (Py.isspace c).
    + destruct (word =? "")%string.
      * apply IH.
      * destruct (IH "") as [Hne Hl]. split; [discriminate |].
        now rewrite last_cons_nonempty.
    + apply IH.
Qed.

Lemma join_snoc (sep : string) (l : list string) (x : string) :
  exists p, Py.join sep (l ++ [x]) = p ++ x.
Proof.
  induction l as [| y l [p IH]].
  - exists "". reflexivity.
  - exists (y ++ sep ++ p).
    change ((y :: l) ++ [x])%list with (y :: (l ++ [x]))%list.
    destruct (l ++ [x])%list as [| z l'] eqn:Hl.
    + destruct l; discriminate.
    + change (Py.join sep (y :: z :: l'))
        with (y ++ sep ++ Py.join sep (z :: l')).
      rewrite IH. now rewrite !append_assoc.
Qed.

(** X12.  A name with a blank in it is not taken whole: if the last name
    listed is [a ++ " " ++ b] with [b] a plain word, the file named in
    the upload is [b], the part after the blank, whatever [a] and the
    names listed before it are. *)
Theorem blank_in_last_name_cuts_the_artifact
    (fttd : string -> string -> string -> string) (w : World) (fuel : nat)
    (bc : BuildConfig) (before : list string) (a b : string) :
  tags_fit w bc ->
  to_aws_tar_files w = (before ++ [(a ++ " " ++ b)%string])%list ->
  plain_name b ->
  let r := aws_create_afi fttd w fuel (OfBuildConfig bc) in
  filter (is_local_at S3Cp) (trace r)
  = [ELocal S3Cp (Some (to_aws (pwd w) bc))
       (s3_cp_command b (s3_bucketname bc) (s3_tarfile w b))].
Proof.
  intros Hfit Hfiles Hb r. subst r.
  destruct (join_snoc newline before (a ++ " " ++ b)) as [p Hp].
  assert (Hout : ls_tar_stdout w = (p ++ a) ++ String " " b).
  { unfold ls_tar_stdout. fold newline. rewrite Hfiles, Hp.
    now rewrite append_assoc. }
  destruct (split_from_ends_with_last_word b Hb (p ++ a) "") as [Hne Hl].
  fold (Py.split ((p ++ a) ++ String " " b)) in Hne, Hl.
  rewrite <- Hout in Hne, Hl.
  destruct (aws_create_afi_submitted_cases fttd w fuel bc Hfit Hne)
    as [m [H | [H | H]]]; rewrite H, Hl; cbn [trace fst];
    filter_trace; reflexivity.
Qed.

Lemma blank_in_last_name_cuts_the_artifact_witness :
  let w := example_world 0 ["my design.tar"]
             (pending_twice_then "available") in
  let bc := example_config None false in
  filter (is_local_at S3Cp)
    (trace (aws_create_afi example_tags_to_description w 5 (OfBuildConfig bc)))
  = [ELocal S3Cp (Some (to_aws (pwd w) bc))
       (s3_cp_command "design.tar" (s3_bucketname bc)
          (s3_tarfile w "design.tar"))].
Proof.
  intros w bc.
  refine (blank_in_last_name_cuts_the_artifact example_tags_to_description
            w 5 bc [] "my" "design.tar" _ _ _).
  - apply example_fits.
  - reflexivity.
  - split; [discriminate | reflexivity].
Defined.

(** ** The remote set-up *)

